(** * PyFreeLeh: the Google Sheets wrapper, session and scratchpad

    A shallow embedding of [src/pyfreeleh/providers/google/sheet/wrapper.py]
    and of the exception classes of [src/pyfreeleh/base.py].

    - JSON values (what [json.loads] and the Sheets client return) are an
      inductive type; Python's float is kept abstract.
    - Exceptions are values of [exn]; fallible code returns [result].
    - Calls to the remote service thread an abstract [World] through a small
      state-and-exception monad; [query] reaches its endpoint through a
      parameter standing for [requests.get].
    - Python builtins whose behaviour is not part of this repository
      ([int], [float], [repr], [json.loads], float comparison) are the fields
      of the class [PyBuiltins]; the [A1Range] class, which lives in a module
      that is not part of the sources at hand, is the class [A1RangeOps]. *)

From Stdlib Require Import String Ascii List ZArith Bool Lia DecimalString.
Import ListNotations.
Open Scope string_scope.

Set Implicit Arguments.
Set Warnings "-register-all,-notation-for-abbreviation".

(* ================================================================== *)
(** ** JSON values *)

Section JsonValues.

Variable F : Type.

(** A value as [json.loads] builds it: [None], [bool], [int], [float],
    [str], [list], and [dict] with string keys (in insertion order; keys are
    unique in a dict built by Python). *)
Inductive json : Type :=
| JNull
| JBool (b : bool)
| JInt (n : Z)
| JFloat (f : F)
| JStr (s : string)
| JList (items : list json)
| JDict (entries : list (string * json)).

(** Python exceptions raised by the modelled code, all of them subclasses
    of [Exception].  [KeyNotFoundError] and [InvalidOperationError] are the
    two classes of [pyfreeleh/base.py]; [ExternalError] stands for whatever
    a collaborator raises (HTTP errors, JSON decoding errors, range parsing
    errors), under the name of its class. *)
Inductive exn : Type :=
| KeyError (key : json)
| IndexError
| TypeError
| ValueError (msg : string)
| AttributeError (cls attr : string)
| KeyNotFoundError (msg : string)
| InvalidOperationError (msg : string)
| ExternalError (cls msg : string).

Inductive result (A : Type) : Type :=
| Ok (a : A)
| Raise (e : exn).

End JsonValues.

Arguments JNull {F}.
Arguments JBool {F} b.
Arguments JInt {F} n.
Arguments JStr {F} s.
Arguments JList {F} items.
Arguments JDict {F} entries.
Arguments IndexError {F}.
Arguments TypeError {F}.
Arguments ValueError {F} msg.
Arguments AttributeError {F} cls attr.
Arguments KeyNotFoundError {F} msg.
Arguments InvalidOperationError {F} msg.
Arguments ExternalError {F} cls msg.
Arguments Ok {F A} a.
Arguments Raise {F A} e.

(** The name of the Python class of an exception. *)
Definition exn_class_name {F} (e : exn F) : string :=
  match e with
  | KeyError _ => "KeyError"
  | IndexError => "IndexError"
  | TypeError => "TypeError"
  | ValueError _ => "ValueError"
  | AttributeError _ _ => "AttributeError"
  | KeyNotFoundError _ => "KeyNotFoundError"
  | InvalidOperationError _ => "InvalidOperationError"
  | ExternalError cls _ => cls
  end.

Definition bind_result {F A B} (m : result F A) (k : A -> result F B) : result F B :=
  match m with
  | Ok a => k a
  | Raise e => Raise e
  end.

Declare Scope py_scope.
Delimit Scope py_scope with py.
Notation "x <- m ;; k" := (bind_result m (fun x => k))
  (at level 61, m at next level, right associativity) : py_scope.
Open Scope py_scope.

(** Python builtins used by the wrapper, on JSON-like arguments. *)
Class PyBuiltins (F : Type) : Type := {
  (** [bool(x)] for a float: [x != 0.0] *)
  float_truthy : F -> bool;
  (** [x == y] for two floats, and for a float and an int *)
  float_eqb : F -> F -> bool;
  float_eq_int : F -> Z -> bool;
  (** [repr(x)] *)
  py_repr : json F -> string;
  (** [int(x)] and [float(x)] *)
  py_int : json F -> result F (json F);
  py_float : json F -> result F (json F);
  (** [json.loads(text)] *)
  json_loads : string -> result F (json F)
}.

(* ================================================================== *)
(** ** Python operations on JSON values *)

Section PythonOps.

Context {F : Type} `{PyBuiltins F}.

Notation json := (json F).
Notation exn := (exn F).
Notation result := (result F).

(** [bool(x)], as used by [not x]. *)
Definition truthy (x : json) : bool :=
  match x with
  | JNull => false
  | JBool b => b
  | JInt n => negb (Z.eqb n 0)
  | JFloat f => float_truthy f
  | JStr s => negb (String.eqb s "")
  | JList items => match items with [] => false | _ :: _ => true end
  | JDict entries => match entries with [] => false | _ :: _ => true end
  end.

(** [x is None] *)
Definition is_none (x : json) : bool :=
  match x with
  | JNull => true
  | _ => false
  end.

Fixpoint dict_lookup (k : string) (entries : list (string * json)) : option json :=
  match entries with
  | [] => None
  | (k', v) :: rest => if String.eqb k' k then Some v else dict_lookup k rest
  end.

(** [x[k]] for a string key [k]: only a dict accepts it. *)
Definition getitem (x : json) (k : string) : result json :=
  match x with
  | JDict entries =>
      match dict_lookup k entries with
      | Some v => Ok v
      | None => Raise (KeyError (JStr k))
      end
  | _ => Raise TypeError
  end.

(** [x[i]] for a non-negative integer [i]: a list or a str is indexed, a
    dict (whose keys are strings) has no such key. *)
Definition getitem_int (x : json) (i : nat) : result json :=
  match x with
  | JList items =>
      match nth_error items i with
      | Some v => Ok v
      | None => Raise IndexError
      end
  | JStr s =>
      match String.get i s with
      | Some c => Ok (JStr (String c EmptyString))
      | None => Raise IndexError
      end
  | JDict _ => Raise (KeyError (JInt (Z.of_nat i)))
  | _ => Raise TypeError
  end.

(** [type(x).__name__] *)
Definition py_type_name (x : json) : string :=
  match x with
  | JNull => "NoneType"
  | JBool _ => "bool"
  | JInt _ => "int"
  | JFloat _ => "float"
  | JStr _ => "str"
  | JList _ => "list"
  | JDict _ => "dict"
  end.

(** [x.get(k, default)]: a dict method; any other JSON value has no
    attribute [get]. *)
Definition dict_get_default (x : json) (k : string) (default : json) : result json :=
  match x with
  | JDict entries =>
      match dict_lookup k entries with
      | Some v => Ok v
      | None => Ok default
      end
  | _ => Raise (AttributeError (py_type_name x) "get")
  end.

Fixpoint chars_of (s : string) : list json :=
  match s with
  | EmptyString => []
  | String c rest => JStr (String c EmptyString) :: chars_of rest
  end.

(** The items [for x in v] goes through: the elements of a list, the keys
    of a dict, the characters of a str. *)
Definition py_iter (v : json) : result (list json) :=
  match v with
  | JList items => Ok items
  | JDict entries => Ok (map (fun kv => JStr (fst kv)) entries)
  | JStr s => Ok (chars_of s)
  | _ => Raise TypeError
  end.

(** [x == s] for a str literal [s]. *)
Definition eq_str (x : json) (s : string) : bool :=
  match x with
  | JStr t => String.eqb t s
  | _ => false
  end.

(** [sub in s] for two strs. *)
Definition str_contains (sub s : string) : bool :=
  match String.index 0 sub s with
  | Some _ => true
  | None => false
  end.

(** [sub in x]: substring test on a str, membership in a list, key
    membership in a dict. *)
Definition py_contains (sub : string) (x : json) : result bool :=
  match x with
  | JStr s => Ok (str_contains sub s)
  | JList items => Ok (existsb (fun item => eq_str item sub) items)
  | JDict entries => Ok (existsb (fun kv => String.eqb (fst kv) sub) entries)
  | _ => Raise TypeError
  end.

(** [str(x)], as [str.format] renders its argument. *)
Definition py_str (x : json) : string :=
  match x with
  | JStr s => s
  | _ => py_repr x
  end.

(** [s.index(sub)] and [s.rindex(sub)]. *)
Definition str_index (sub s : string) : result nat :=
  match String.index 0 sub s with
  | Some i => Ok i
  | None => Raise (ValueError "substring not found")
  end.

Fixpoint rindex_from (sub s : string) (pos : nat) : option nat :=
  match s with
  | EmptyString => if String.prefix sub EmptyString then Some pos else None
  | String _ rest =>
      match rindex_from sub rest (S pos) with
      | Some i => Some i
      | None => if String.prefix sub s then Some pos else None
      end
  end.

Definition str_rindex (sub s : string) : result nat :=
  match rindex_from sub s 0 with
  | Some i => Ok i
  | None => Raise (ValueError "substring not found")
  end.

(** [s[start:stop]] for non-negative bounds. *)
Definition str_slice (s : string) (start stop : nat) : string :=
  String.substring start (stop - start) s.

(* ------------------------------------------------------------------ *)
(** *** Python dicts with JSON keys (the decoded rows) *)

Definition pydict : Type := list (json * json).

Definition hashable (k : json) : bool :=
  match k with
  | JList _ | JDict _ => false
  | _ => true
  end.

(** [a == b] on hashable values: numbers compare by value across [bool],
    [int] and [float]. *)
Definition key_eqb (a b : json) : bool :=
  match a, b with
  | JNull, JNull => true
  | JStr s, JStr t => String.eqb s t
  | JBool x, JBool y => Bool.eqb x y
  | JBool x, JInt n | JInt n, JBool x => Z.eqb (Z.b2z x) n
  | JInt n, JInt m => Z.eqb n m
  | JFloat f, JFloat g => float_eqb f g
  | JFloat f, JInt n | JInt n, JFloat f => float_eq_int f n
  | JFloat f, JBool x | JBool x, JFloat f => float_eq_int f (Z.b2z x)
  | _, _ => false
  end.

(** [d[k] = v] on a dict that already passed the hashability check: an
    existing key keeps its place and gets the new value. *)
Fixpoint dict_put (d : pydict) (k v : json) : pydict :=
  match d with
  | [] => [(k, v)]
  | (k', v') :: rest =>
      if key_eqb k' k then (k', v) :: rest else (k', v') :: dict_put rest k v
  end.

Definition dict_setitem (d : pydict) (k v : json) : result pydict :=
  if hashable k then Ok (dict_put d k v) else Raise TypeError.

(** [d.get(k)] seen as an option: [None] when the key is absent. *)
Fixpoint dict_find (d : pydict) (k : json) : option json :=
  match d with
  | [] => None
  | (k', v) :: rest => if key_eqb k' k then Some v else dict_find rest k
  end.

End PythonOps.

(* ================================================================== *)
(** ** The cell decoder: [GoogleSheetWrapper._parse_cell] and
       [GoogleSheetWrapper._convert_query_result] *)

Section Decoder.

Context {F : Type} `{PyBuiltins F}.

Notation json := (json F).
Notation result := (result F).

(** [typ in ["date", "datetime", "timeofday"]] *)
Definition is_date_like (typ : json) : bool :=
  existsb (eq_str typ) ["date"; "datetime"; "timeofday"].

(** [_parse_cell(self, cell, col)].  The null test comes first and does not
    look at the column; [col["type"]] is read only for a non-null cell. *)
Definition _parse_cell (cell col : json) : result json :=
  if negb (truthy cell) then Ok JNull
  else
    v <- getitem cell "v" ;;
    if is_none v then Ok JNull
    else
      typ <- getitem col "type" ;;
      if eq_str typ "boolean" then getitem cell "v"
      else if eq_str typ "number" then
        f <- getitem cell "f" ;;
        has_dot <- py_contains "." f ;;
        if has_dot then
          f <- getitem cell "f" ;;
          py_float f
        else
          f <- getitem cell "f" ;;
          py_int f
      else if eq_str typ "string" then getitem cell "v"
      else if is_date_like typ then getitem cell "f"
      else Raise (ValueError ("cell type " ++ py_str typ ++ " is not supported")).

(** The inner loop of [_convert_query_result]:
    [for cell_idx, cell in enumerate(row["c"])], with [result_row] as the
    accumulator.  In [result_row[col["id"]] = self._parse_cell(cell, col)]
    Python evaluates the right-hand side before the subscript. *)
Fixpoint convert_cells (cols : json) (cell_idx : nat) (cells : list json)
    (result_row : pydict) : result pydict :=
  match cells with
  | [] => Ok result_row
  | cell :: rest =>
      if negb (truthy cell) then convert_cells cols (S cell_idx) rest result_row
      else
        col <- getitem_int cols cell_idx ;;
        value <- _parse_cell cell col ;;
        key <- getitem col "id" ;;
        result_row' <- dict_setitem result_row key value ;;
        convert_cells cols (S cell_idx) rest result_row'
  end.

(** The outer loop: [for row in rows], with [results] as the accumulator. *)
Fixpoint convert_rows (cols : json) (rows : list json) (results : list pydict)
    : result (list pydict) :=
  match rows with
  | [] => Ok results
  | row :: rest =>
      c <- getitem row "c" ;;
      cells <- py_iter c ;;
      result_row <- convert_cells cols 0 cells [] ;;
      convert_rows cols rest (results ++ [result_row])
  end.

(** [_convert_query_result(self, response)]: the JSON object between the
    first opening and the last closing brace of the response text is decoded
    and its table converted row by row. *)
Definition _convert_query_result (response : string) : result (list pydict) :=
  start <- str_index "{" response ;;
  end_ <- str_rindex "}" response ;;
  resp <- json_loads (str_slice response start (end_ + 1)) ;;
  table <- getitem resp "table" ;;
  cols <- getitem table "cols" ;;
  table <- getitem resp "table" ;;
  rows <- getitem table "rows" ;;
  rows <- py_iter rows ;;
  convert_rows cols rows [].

(** The column types [_parse_cell] has a branch for. *)
Definition decoded_types : list string :=
  ["boolean"; "number"; "string"; "date"; "datetime"; "timeofday"].

(** No non-null cell of [cells] (the cells of a row from position [idx] on)
    stores its value under a key equal to [k]. *)
Definition no_cell_writes (cols : json) (idx : nat) (cells : list json) (k : json) : Prop :=
  forall i cell col id,
    nth_error cells i = Some cell ->
    truthy cell = true ->
    getitem_int cols (idx + i) = Ok col ->
    getitem col "id" = Ok id ->
    key_eqb id k = false.

(** The cells of a row, as the inner loop enumerates them. *)
Definition row_cells (row : json) : result (list json) :=
  c <- getitem row "c" ;;
  py_iter c.

(** The columns and the rows [_convert_query_result] extracts from the
    response text before it enters its loops. *)
Definition response_table (response : string) : result (json * list json) :=
  start <- str_index "{" response ;;
  end_ <- str_rindex "}" response ;;
  resp <- json_loads (str_slice response start (end_ + 1)) ;;
  table <- getitem resp "table" ;;
  cols <- getitem table "cols" ;;
  table <- getitem resp "table" ;;
  rows <- getitem table "rows" ;;
  rows <- py_iter rows ;;
  Ok (cols, rows).

(** In [mapping], decoded from [cells]: a key that no non-null cell is
    stored under is absent. *)
Definition null_cells_absent (cols : json) (cells : list json) (mapping : pydict) : Prop :=
  forall k, no_cell_writes cols 0 cells k -> dict_find mapping k = None.

(** In [mapping], decoded from [cells]: a cell whose raw value is null has
    null under its column id, unless a later cell is stored under that id. *)
Definition null_values_stored (cols : json) (cells : list json) (mapping : pydict) : Prop :=
  forall i cell col id,
    nth_error cells i = Some cell ->
    getitem cell "v" = Ok JNull ->
    getitem_int cols i = Ok col ->
    getitem col "id" = Ok (JStr id) ->
    no_cell_writes cols (S i) (skipn (S i) cells) (JStr id) ->
    _parse_cell cell col = Ok JNull /\ dict_find mapping (JStr id) = Some JNull.

End Decoder.

(* ================================================================== *)
(** ** Ranges and result records

    [A1Range], [BatchUpdateRowsRequest], [InsertRowsResult] and
    [UpdateRowsResult] are imported by [wrapper.py] from the sibling module
    [.base], which is not among the sources at hand.  The wrapper uses
    [A1Range] through [A1Range.from_notation] and [str] only, so the class
    is a parameter; the records have the fields the wrapper reads and the
    keyword arguments it constructs them with. *)

Class A1RangeOps (F A1Range : Type) : Type := {
  (** [A1Range.from_notation(x)] *)
  from_notation : json F -> result F A1Range;
  (** [str(r)] *)
  a1_str : A1Range -> string
}.

(** What [str(x)] gives for the objects passed as a range. *)
Class PyStr (A : Type) : Type := py_str_of : A -> string.

#[export] Instance PyStr_A1Range {F A1Range} `{A1RangeOps F A1Range} : PyStr A1Range :=
  a1_str.

(** A slot holding either an object or Python's [None]. *)
#[export] Instance PyStr_or_None {A} `{PyStr A} : PyStr (option A) :=
  fun x => match x with Some a => py_str_of a | None => "None" end.

Module BatchUpdateRowsRequest.
Record t (F A1Range : Type) : Type := {
  range : A1Range;
  values : json F
}.
End BatchUpdateRowsRequest.

Module InsertRowsResult.
Record t (F A1Range : Type) : Type := {
  updated_range : A1Range;
  updated_rows : json F;
  updated_columns : json F;
  updated_cells : json F;
  inserted_values : json F
}.
End InsertRowsResult.

Module UpdateRowsResult.
Record t (F A1Range : Type) : Type := {
  updated_range : A1Range;
  updated_rows : json F;
  updated_columns : json F;
  updated_cells : json F;
  updated_values : json F
}.
End UpdateRowsResult.

(* ================================================================== *)
(** ** The remote service *)

(** A request of the Sheets client, as [GoogleSheetWrapper] builds it
    before calling [.execute()]. *)
Inductive api_call (F : Type) : Type :=
| Create (body : json F)
| BatchUpdate (spreadsheetId : string) (body : json F)
| ValuesAppend (spreadsheetId range insertDataOption includeValuesInResponse
    responseValueRenderOption valueInputOption : string) (body : json F)
| ValuesBatchClear (spreadsheetId : string) (body : json F)
| ValuesUpdate (spreadsheetId range includeValuesInResponse
    responseValueRenderOption valueInputOption : string) (body : json F)
| ValuesBatchUpdate (spreadsheetId : string) (body : json F).

Section Service.

Context {F : Type} `{PyBuiltins F}.
Context {A1Range : Type} `{A1RangeOps F A1Range}.
Context {World : Type}.

Notation json := (json F).
Notation exn := (exn F).
Notation result := (result F).

(** A computation that talks to the service: it may change the remote state
    and either returns or raises. *)
Definition M (A : Type) : Type := World -> result A * World.

Definition ret {A} (a : A) : M A := fun w => (Ok a, w).

Definition bind {A B} (m : M A) (k : A -> M B) : M B :=
  fun w =>
    match m w with
    | (Ok a, w') => k a w'
    | (Raise e, w') => (Raise e, w')
    end.

Definition lift {A} (r : result A) : M A := fun w => (r, w).

(** [try: m  except Exception: pass] *)
Definition try_except_pass {A} (m : M A) : M unit :=
  fun w => (Ok tt, snd (m w)).

End Service.

Arguments M : clear implicits.

Notation "x <~ m ;; k" := (bind m (fun x => k))
  (at level 61, m at next level, right associativity) : py_scope.

(* ================================================================== *)
(** ** [GoogleSheetWrapper] *)

Section Wrapper.

Context {F : Type} `{PyBuiltins F}.
Context {A1Range : Type} `{A1RangeOps F A1Range}.
Context {World : Type}.

Notation json := (json F).
Notation result := (result F).
Notation M := (M F World).

(** The wrapper object: [_svc] is the Sheets client, seen as the function
    that executes a request against the remote state. *)
Record GoogleSheetWrapper : Type := {
  _svc : api_call F -> M json
}.

Definition APPEND_MODE_OVERWRITE : string := "OVERWRITE".
Definition APPEND_MODE_INSERT : string := "INSERT_ROWS".
Definition MAJOR_DIMENSION_ROWS : string := "ROWS".

Definition create_spreadsheet (self : GoogleSheetWrapper) (title : string) : M string :=
  resp <~ _svc self (Create (JDict [("properties", JDict [("title", JStr title)])])) ;;
  lift (id <- getitem resp "spreadsheetId" ;; Ok (py_str id)).

Definition create_sheet (self : GoogleSheetWrapper) (spreadsheet_id sheet_name : string)
    : M string :=
  resp <~ _svc self
    (BatchUpdate spreadsheet_id
       (JDict [("requests",
          JDict [("addSheet",
            JDict [("properties", JDict [("title", JStr sheet_name)])])])])) ;;
  lift (replies <- getitem resp "replies" ;;
        reply <- getitem_int replies 0 ;;
        added <- getitem reply "addSheet" ;;
        props <- getitem added "properties" ;;
        id <- getitem props "sheetId" ;;
        Ok (py_str id)).

Definition delete_sheet (self : GoogleSheetWrapper) (spreadsheet_id sheet_id : string)
    : M unit :=
  _ <~ _svc self
    (BatchUpdate spreadsheet_id
       (JDict [("requests", JDict [("deleteSheet", JDict [("sheetId", JStr sheet_id)])])])) ;;
  ret tt.

(** The keyword arguments of [InsertRowsResult(...)] are evaluated in the
    order they are written. *)
Definition InsertRowsResult_of (resp : json) : result (InsertRowsResult.t F A1Range) :=
  updates <- getitem resp "updates" ;;
  data <- getitem updates "updatedData" ;;
  notation <- getitem data "range" ;;
  updated_range <- from_notation notation ;;
  updates <- getitem resp "updates" ;;
  updated_rows <- getitem updates "updatedRows" ;;
  updates <- getitem resp "updates" ;;
  updated_columns <- getitem updates "updatedColumns" ;;
  updates <- getitem resp "updates" ;;
  updated_cells <- getitem updates "updatedCells" ;;
  updates <- getitem resp "updates" ;;
  data <- getitem updates "updatedData" ;;
  inserted_values <- getitem data "values" ;;
  Ok {| InsertRowsResult.updated_range := updated_range;
        InsertRowsResult.updated_rows := updated_rows;
        InsertRowsResult.updated_columns := updated_columns;
        InsertRowsResult.updated_cells := updated_cells;
        InsertRowsResult.inserted_values := inserted_values |}.

Definition _insert_rows {R} `{PyStr R} (self : GoogleSheetWrapper)
    (spreadsheet_id : string) (a1_range : R) (values : json) (mode : string)
    : M (InsertRowsResult.t F A1Range) :=
  resp <~ _svc self
    (ValuesAppend spreadsheet_id (py_str_of a1_range) mode "true" "FORMATTED_VALUE"
       "USER_ENTERED" (JDict [("values", values)])) ;;
  lift (InsertRowsResult_of resp).

Definition insert_rows {R} `{PyStr R} (self : GoogleSheetWrapper)
    (spreadsheet_id : string) (range : R) (values : json)
    : M (InsertRowsResult.t F A1Range) :=
  _insert_rows self spreadsheet_id range values APPEND_MODE_INSERT.

Definition overwrite_rows {R} `{PyStr R} (self : GoogleSheetWrapper)
    (spreadsheet_id : string) (range : R) (values : json)
    : M (InsertRowsResult.t F A1Range) :=
  _insert_rows self spreadsheet_id range values APPEND_MODE_OVERWRITE.

Definition clear {R} `{PyStr R} (self : GoogleSheetWrapper) (spreadsheet_id : string)
    (ranges : list R) : M unit :=
  _ <~ _svc self
    (ValuesBatchClear spreadsheet_id
       (JDict [("ranges", JList (map (fun r => JStr (py_str_of r)) ranges))])) ;;
  ret tt.

(** The [UpdateRowsResult(...)] expression that [update_rows] applies to the
    response and [batch_update_rows] to each entry of the response list (the
    two are the same text in the source). *)
Definition UpdateRowsResult_of (response : json) : result (UpdateRowsResult.t F A1Range) :=
  notation <- getitem response "updatedRange" ;;
  updated_range <- from_notation notation ;;
  updated_rows <- getitem response "updatedRows" ;;
  updated_columns <- getitem response "updatedColumns" ;;
  updated_cells <- getitem response "updatedCells" ;;
  data <- getitem response "updatedData" ;;
  updated_values <- dict_get_default data "values" (JList []) ;;
  Ok {| UpdateRowsResult.updated_range := updated_range;
        UpdateRowsResult.updated_rows := updated_rows;
        UpdateRowsResult.updated_columns := updated_columns;
        UpdateRowsResult.updated_cells := updated_cells;
        UpdateRowsResult.updated_values := updated_values |}.

Definition update_rows {R} `{PyStr R} (self : GoogleSheetWrapper)
    (spreadsheet_id : string) (a1_range : R) (values : json)
    : M (UpdateRowsResult.t F A1Range) :=
  resp <~ _svc self
    (ValuesUpdate spreadsheet_id (py_str_of a1_range) "true" "FORMATTED_VALUE"
       "USER_ENTERED"
       (JDict [("majorDimension", JStr MAJOR_DIMENSION_ROWS);
               ("range", JStr (py_str_of a1_range));
               ("values", values)])) ;;
  lift (UpdateRowsResult_of resp).

(** The record built from a response entry, as a relation. *)
Definition built_from (response : json) (r : UpdateRowsResult.t F A1Range) : Prop :=
  UpdateRowsResult_of response = Ok r.


(** The body of the request of [batch_update_rows]: one entry of [data] per
    request, in the order of [requests]. *)
Definition batch_update_body (requests : list (BatchUpdateRowsRequest.t F A1Range))
    : json :=
  JDict [("includeValuesInResponse", JBool true);
         ("responseValueRenderOption", JStr "FORMATTED_VALUE");
         ("valueInputOption", JStr "USER_ENTERED");
         ("data",
          JList (map (fun req =>
                   JDict [("majorDimension", JStr MAJOR_DIMENSION_ROWS);
                          ("range", JStr (py_str_of (BatchUpdateRowsRequest.range req)));
                          ("values", BatchUpdateRowsRequest.values req)])
                 requests))].

(** [for response in resp["responses"]: results.append(...)] *)
Fixpoint batch_update_results (responses : list json)
    (results : list (UpdateRowsResult.t F A1Range))
    : result (list (UpdateRowsResult.t F A1Range)) :=
  match responses with
  | [] => Ok results
  | response :: rest =>
      r <- UpdateRowsResult_of response ;;
      batch_update_results rest (results ++ [r])
  end.

Definition batch_update_rows (self : GoogleSheetWrapper) (spreadsheet_id : string)
    (requests : list (BatchUpdateRowsRequest.t F A1Range))
    : M (list (UpdateRowsResult.t F A1Range)) :=
  resp <~ _svc self (ValuesBatchUpdate spreadsheet_id (batch_update_body requests)) ;;
  lift (responses <- getitem resp "responses" ;;
        responses <- py_iter responses ;;
        batch_update_results responses []).

End Wrapper.

Arguments GoogleSheetWrapper : clear implicits.

(* ================================================================== *)
(** ** [GoogleSheetSession] and [GoogleSheetScratchpad] *)

(** An instance attribute that may not have been assigned yet. *)
Inductive slot (A : Type) : Type :=
| Unassigned
| Assigned (v : A).

Arguments Unassigned {A}.
Arguments Assigned {A} v.

Section Session.

Context {F : Type} `{PyBuiltins F}.
Context {A1Range : Type} `{A1RangeOps F A1Range}.
Context {World : Type}.

Notation json := (json F).
Notation result := (result F).
Notation M := (M F World).
Notation GoogleSheetWrapper := (GoogleSheetWrapper F World).

(** The three attributes [GoogleSheetSession.__init__] assigns. *)
Record GoogleSheetSession : Type := {
  spreadsheet_id : string;
  sheet_name : string;
  _wrapper : GoogleSheetWrapper
}.

(** [self._scratchpad_name] on a session: neither [__init__] nor the class
    body defines that name, so the lookup raises AttributeError. *)
Definition GoogleSheetSession_scratchpad_name (self : GoogleSheetSession) : result string :=
  Raise (AttributeError "GoogleSheetSession" "_scratchpad_name").

(** [_ensure]: the arguments of [create_sheet] are evaluated before the call;
    whatever is raised inside the [try] is dropped. *)
Definition _ensure (self : GoogleSheetSession) : M unit :=
  try_except_pass
    (name <~ lift (GoogleSheetSession_scratchpad_name self) ;;
     create_sheet (_wrapper self) (spreadsheet_id self) name).

(** [GoogleSheetSession(wrapper, spreadsheet_id, sheet_name)] *)
Definition GoogleSheetSession_init (wrapper : GoogleSheetWrapper)
    (spreadsheet_id sheet_name : string) : M GoogleSheetSession :=
  let self := {| spreadsheet_id := spreadsheet_id;
                 sheet_name := sheet_name;
                 _wrapper := wrapper |} in
  _ <~ _ensure self ;;
  ret self.

Definition Session_insert_rows {R} `{PyStr R} (self : GoogleSheetSession) (a1_range : R)
    (values : json) : M (InsertRowsResult.t F A1Range) :=
  insert_rows (_wrapper self) (spreadsheet_id self) a1_range values.

Definition Session_overwrite_rows {R} `{PyStr R} (self : GoogleSheetSession) (a1_range : R)
    (values : json) : M (InsertRowsResult.t F A1Range) :=
  overwrite_rows (_wrapper self) (spreadsheet_id self) a1_range values.

Definition Session_clear {R} `{PyStr R} (self : GoogleSheetSession) (a1_ranges : list R)
    : M unit :=
  clear (_wrapper self) (spreadsheet_id self) a1_ranges.

Definition Session_update_rows {R} `{PyStr R} (self : GoogleSheetSession) (a1_range : R)
    (values : json) : M (UpdateRowsResult.t F A1Range) :=
  update_rows (_wrapper self) (spreadsheet_id self) a1_range values.

Definition Session_batch_update_rows (self : GoogleSheetSession)
    (requests : list (BatchUpdateRowsRequest.t F A1Range))
    : M (list (UpdateRowsResult.t F A1Range)) :=
  batch_update_rows (_wrapper self) (spreadsheet_id self) requests.

(* ------------------------------------------------------------------ *)

Definition SCRATCHPAD_BOOKED_VALUE : string := "BOOKED".

(** The two attributes a scratchpad ever gets: [_session], assigned first in
    [__init__], and [_scratchpad_cell], which holds a range or [None] once
    assigned. *)
Record GoogleSheetScratchpad : Type := {
  _session : GoogleSheetSession;
  _scratchpad_cell : slot (option A1Range)
}.

Definition set_scratchpad_cell (self : GoogleSheetScratchpad) (v : option A1Range)
    : GoogleSheetScratchpad :=
  {| _session := _session self; _scratchpad_cell := Assigned v |}.

(** [self._scratchpad_cell] *)
Definition Scratchpad_cell (self : GoogleSheetScratchpad) : result (option A1Range) :=
  match _scratchpad_cell self with
  | Assigned v => Ok v
  | Unassigned => Raise (AttributeError "GoogleSheetScratchpad" "_scratchpad_cell")
  end.

(** [self._wrapper] and [self._spreadsheet_id] on a scratchpad: the class
    assigns [_session] and [_scratchpad_cell] only, so both lookups raise
    AttributeError. *)
Definition Scratchpad_wrapper (self : GoogleSheetScratchpad) : result GoogleSheetWrapper :=
  Raise (AttributeError "GoogleSheetScratchpad" "_wrapper").

Definition Scratchpad_spreadsheet_id (self : GoogleSheetScratchpad) : result string :=
  Raise (AttributeError "GoogleSheetScratchpad" "_spreadsheet_id").

(** [_book_scratchpad_cell]: returns the object as the method leaves it and
    the value of the call.  The body has no [return] statement, so the call
    evaluates to [None]. *)
Definition _book_scratchpad_cell (self : GoogleSheetScratchpad)
    : M (GoogleSheetScratchpad * option A1Range) :=
  a1_range <~ lift (from_notation (JStr (sheet_name (_session self)))) ;;
  result <~ Session_overwrite_rows (_session self) a1_range
              (JList [JList [JStr SCRATCHPAD_BOOKED_VALUE]]) ;;
  let self := set_scratchpad_cell self (Some (InsertRowsResult.updated_range result)) in
  ret (self, None).

(** [GoogleSheetScratchpad(session)]:
    [self._scratchpad_cell = self._book_scratchpad_cell()] assigns the value
    of the call after the method has run. *)
Definition GoogleSheetScratchpad_init (session : GoogleSheetSession)
    : M GoogleSheetScratchpad :=
  let self := {| _session := session; _scratchpad_cell := Unassigned |} in
  booked <~ _book_scratchpad_cell self ;;
  let self := fst booked in
  ret (set_scratchpad_cell self (snd booked)).

(** [execute(formula)]: [self._wrapper] is looked up first, then the
    arguments from left to right. *)
Definition execute (self : GoogleSheetScratchpad) (formula : string) : M json :=
  wrapper <~ lift (Scratchpad_wrapper self) ;;
  sid <~ lift (Scratchpad_spreadsheet_id self) ;;
  cell <~ lift (Scratchpad_cell self) ;;
  result <~ update_rows wrapper sid cell (JList [JList [JStr formula]]) ;;
  lift (row <- getitem_int (UpdateRowsResult.updated_values result) 0 ;;
        getitem_int row 0).

(** [close()] *)
Definition close (self : GoogleSheetScratchpad) : M unit :=
  wrapper <~ lift (Scratchpad_wrapper self) ;;
  sid <~ lift (Scratchpad_spreadsheet_id self) ;;
  cell <~ lift (Scratchpad_cell self) ;;
  clear wrapper sid [cell].

End Session.

Arguments GoogleSheetSession : clear implicits.
Arguments GoogleSheetScratchpad : clear implicits.

(* ================================================================== *)
(** ** [GoogleSheetWrapper.query]

    [query] reaches the query endpoint through [requests.get], with a bearer
    token taken from the wrapper's [_auth_client].  The wrapper record above
    carries [_svc] only, so the auth client travels beside it here, and
    [requests.get] is a parameter. *)

(** The attributes of a [requests.Response] that [raise_for_status] and
    [query] read. *)
Record http_response : Type := {
  status_code : Z;
  reason : string;
  url : string;
  text : string
}.

Definition str_of_Z (n : Z) : string := NilZero.string_of_int (Z.to_int n).

Section Query.

Context {F : Type} `{PyBuiltins F}.
Context {World : Type}.

Notation json := (json F).
Notation result := (result F).
Notation M := (M F World).

(** [self._auth_client.credentials().token]: the call may refresh the
    credentials; the token is a str, or [None] when none was obtained. *)
Record GoogleAuthClient : Type := {
  credentials_token : M json
}.

(** [requests.get(url=url, params=params, headers=headers)] *)
Definition http_get : Type :=
  string -> list (string * json) -> list (string * json) -> M http_response.

(** [prefix + x] for a str [prefix]: only a str can be concatenated. *)
Definition str_add (prefix : string) (x : json) : result string :=
  match x with
  | JStr s => Ok (prefix ++ s)
  | _ => Raise TypeError
  end.

(** [r.raise_for_status()]: statuses 400 to 599 raise [HTTPError]. *)
Definition raise_for_status (r : http_response) : result unit :=
  if (400 <=? status_code r)%Z && (status_code r <? 500)%Z then
    Raise (ExternalError "HTTPError"
             (str_of_Z (status_code r) ++ " Client Error: " ++ reason r
              ++ " for url: " ++ url r))
  else if (500 <=? status_code r)%Z && (status_code r <? 600)%Z then
    Raise (ExternalError "HTTPError"
             (str_of_Z (status_code r) ++ " Server Error: " ++ reason r
              ++ " for url: " ++ url r))
  else Ok tt.

Definition query_params (sheet_name query_text : string) (has_header : bool)
    : list (string * json) :=
  [("sheet", JStr sheet_name);
   ("tqx", JStr "responseHandler:freeleh");
   ("tq", JStr query_text);
   ("headers", JInt (if has_header then 1 else 0))].

Definition query_url (spreadsheet_id : string) : string :=
  "https://docs.google.com/spreadsheets/d/" ++ spreadsheet_id ++ "/gviz/tq".

(** [query(self, spreadsheet_id, sheet_name, query, has_header)] *)
Definition query (auth_client : GoogleAuthClient) (get : http_get)
    (spreadsheet_id sheet_name query_text : string) (has_header : bool)
    : M (list pydict) :=
  token <~ credentials_token auth_client ;;
  auth_token <~ lift (str_add "Bearer " token) ;;
  let headers :=
    [("contentType", JStr "application/json"); ("Authorization", JStr auth_token)] in
  let params := query_params sheet_name query_text has_header in
  r <~ get (query_url spreadsheet_id) params headers ;;
  _ <~ lift (raise_for_status r) ;;
  lift (_convert_query_result (text r)).

(** [GoogleSheetSession.query(query, has_header)] *)
Definition Session_query (auth_client : GoogleAuthClient) (get : http_get)
    (self : GoogleSheetSession F World) (query_text : string) (has_header : bool)
    : M (list pydict) :=
  query auth_client get (spreadsheet_id self) (sheet_name self) query_text has_header.

End Query.

Arguments GoogleAuthClient : clear implicits.
Arguments http_get : clear implicits.

(* ================================================================== *)
(** ** A concrete instance, to run the model on examples

    Floats are stood in for by finite decimals, [int] and [float] by their
    action on plain ASCII decimal literals (an optional minus sign, digits,
    at most one point), [repr] by its action on [None], booleans and
    integers, [json.loads] by a table of the JSON texts used below.
    Ranges are kept as their notation.  The remote state is the log of the
    requests executed so far, and the service echoes what it is sent. *)

Module Demo.

Record decimal : Type := {
  mantissa : Z;
  scale : nat
}.

Definition value : Type := json decimal.

Definition decimal_eqb (a b : decimal) : bool :=
  Z.eqb (mantissa a * 10 ^ Z.of_nat (scale b)) (mantissa b * 10 ^ Z.of_nat (scale a)).

Definition decimal_eq_int (a : decimal) (n : Z) : bool :=
  Z.eqb (mantissa a) (n * 10 ^ Z.of_nat (scale a)).

Definition is_digit (c : ascii) : bool :=
  (48 <=? nat_of_ascii c)%nat && (nat_of_ascii c <=? 57)%nat.

Fixpoint digits_value (s : string) (acc : Z) : option Z :=
  match s with
  | EmptyString => Some acc
  | String c rest =>
      if is_digit c
      then digits_value rest (acc * 10 + Z.of_nat (nat_of_ascii c - 48))
      else None
  end.

Definition split_sign (s : string) : bool * string :=
  match s with
  | String "-"%char rest => (true, rest)
  | _ => (false, s)
  end.

Definition signed (neg : bool) (n : Z) : Z := if neg then (- n)%Z else n.

Definition int_of_text (s : string) : option Z :=
  let (neg, body) := split_sign s in
  if String.eqb body "" then None
  else option_map (signed neg) (digits_value body 0).

Definition float_of_text (s : string) : option decimal :=
  let (neg, body) := split_sign s in
  match String.index 0 "." body with
  | None =>
      if String.eqb body "" then None
      else option_map (fun n => {| mantissa := signed neg n; scale := 0 |})
             (digits_value body 0)
  | Some i =>
      let whole := String.substring 0 i body in
      let frac := String.substring (S i) (String.length body - S i) body in
      if String.eqb whole "" && String.eqb frac "" then None
      else
        match digits_value whole 0 with
        | None => None
        | Some w =>
            option_map (fun n => {| mantissa := signed neg n; scale := String.length frac |})
              (digits_value frac w)
        end
  end.

Definition int_ (x : value) : result decimal value :=
  match x with
  | JStr s =>
      match int_of_text s with
      | Some n => Ok (JInt n)
      | None => Raise (ValueError ("invalid literal for int() with base 10: '" ++ s ++ "'"))
      end
  | JInt n => Ok (JInt n)
  | JBool b => Ok (JInt (Z.b2z b))
  | JFloat d => Ok (JInt (Z.quot (mantissa d) (10 ^ Z.of_nat (scale d))))
  | _ => Raise TypeError
  end.

Definition float_ (x : value) : result decimal value :=
  match x with
  | JStr s =>
      match float_of_text s with
      | Some d => Ok (JFloat d)
      | None => Raise (ValueError ("could not convert string to float: '" ++ s ++ "'"))
      end
  | JInt n => Ok (JFloat {| mantissa := n; scale := 0 |})
  | JBool b => Ok (JFloat {| mantissa := Z.b2z b; scale := 0 |})
  | JFloat d => Ok (JFloat d)
  | _ => Raise TypeError
  end.

Definition repr (x : value) : string :=
  match x with
  | JNull => "None"
  | JBool true => "True"
  | JBool false => "False"
  | JInt n => NilZero.string_of_int (Z.to_int n)
  | _ => "..."
  end.

Definition typed_col (id typ : string) : value :=
  JDict [("id", JStr id); ("type", JStr typ)].

Definition table (cols rows : list value) : value :=
  JDict [("table", JDict [("cols", JList cols); ("rows", JList rows)])].

(** A JSON string literal: the text between two double quotes. *)
Definition quoted (s : string) : string :=
  String (ascii_of_nat 34) s ++ String (ascii_of_nat 34) EmptyString.

Definition table_text (rows : string) : string :=
  "{" ++ quoted "table" ++ ":{" ++ quoted "cols" ++ ":[{" ++ quoted "id" ++ ":"
  ++ quoted "A" ++ "," ++ quoted "type" ++ ":" ++ quoted "string" ++ "}],"
  ++ quoted "rows" ++ ":" ++ rows ++ "}}".

(** Three JSON texts: an empty table, a row with a null cell, and a row
    with a cell whose raw value is null. *)
Definition empty_text : string := table_text "[]".

Definition null_cell_text : string :=
  table_text ("[{" ++ quoted "c" ++ ":[null]}]").

Definition null_value_text : string :=
  table_text ("[{" ++ quoted "c" ++ ":[{" ++ quoted "v" ++ ":null}]}]").

(** The query endpoint wraps the JSON text in a call of the response
    handler. *)
Definition handler_call (text : string) : string := "freeleh(" ++ text ++ ");".

Definition loads (text : string) : result decimal value :=
  if String.eqb text empty_text
  then Ok (table [typed_col "A" "string"] [])
  else if String.eqb text null_cell_text
  then Ok (table [typed_col "A" "string"] [JDict [("c", JList [JNull])]])
  else if String.eqb text null_value_text
  then Ok (table [typed_col "A" "string"] [JDict [("c", JList [JDict [("v", JNull)]])]])
  else Raise (ExternalError "JSONDecodeError" "not in the table").

#[export] Instance builtins : PyBuiltins decimal := {|
  float_truthy := fun d => negb (Z.eqb (mantissa d) 0);
  float_eqb := decimal_eqb;
  float_eq_int := decimal_eq_int;
  py_repr := repr;
  py_int := int_;
  py_float := float_;
  json_loads := loads
|}.

(** Ranges as their notation. *)
#[export] Instance ranges : A1RangeOps decimal string := {|
  from_notation := fun x =>
    match x with
    | JStr s => Ok s
    | _ => Raise TypeError
    end;
  a1_str := fun r => r
|}.

End Demo.

Module DemoService.
Import Demo.

(** The remote state: the requests executed so far, oldest first. *)
Definition world : Type := list (api_call decimal).

Definition field (x : value) (k : string) : value :=
  match getitem x k with
  | Ok v => v
  | Raise _ => JNull
  end.

(** The entry of [responses] the service returns for one entry of [data]. *)
Definition echo_update (range : value) (values : value) : value :=
  JDict [("updatedRange", range);
         ("updatedRows", JInt 1);
         ("updatedColumns", JInt 1);
         ("updatedCells", JInt 1);
         ("updatedData", JDict [("range", range); ("values", values)])].

Definition answer (call : api_call decimal) : result decimal value :=
  match call with
  | Create _ => Ok (JDict [("spreadsheetId", JStr "spreadsheet-1")])
  | BatchUpdate _ _ => Raise (ExternalError "HttpError" "400")
  | ValuesAppend _ range _ _ _ _ body =>
      Ok (JDict [("updates",
            JDict [("updatedRows", JInt 1);
                   ("updatedColumns", JInt 1);
                   ("updatedCells", JInt 1);
                   ("updatedData",
                    JDict [("range", JStr (range ++ "!A1"));
                           ("values", field body "values")])])])
  | ValuesBatchClear _ _ => Ok (JDict [])
  | ValuesUpdate _ range _ _ _ body => Ok (echo_update (JStr range) (field body "values"))
  | ValuesBatchUpdate _ body =>
      match field body "data" with
      | JList data =>
          Ok (JDict [("responses",
                JList (map (fun d => echo_update (field d "range") (field d "values")) data))])
      | _ => Raise (ExternalError "HttpError" "400")
      end
  end.

Definition service (call : api_call decimal) : M decimal world value :=
  fun w => (answer call, (w ++ [call])%list).

Definition wrapper : GoogleSheetWrapper decimal world := {| _svc := service |}.

Definition session : GoogleSheetSession decimal world :=
  {| spreadsheet_id := "spreadsheet-1"; sheet_name := "scratch"; _wrapper := wrapper |}.

Definition two_requests : list (BatchUpdateRowsRequest.t decimal string) :=
  [ {| BatchUpdateRowsRequest.range := "rows!A2:B2";
       BatchUpdateRowsRequest.values := JList [JList [JStr "name1"; JInt 10]] |};
    {| BatchUpdateRowsRequest.range := "rows!A3:B3";
       BatchUpdateRowsRequest.values := JList [JList [JStr "name2"; JInt 11]] |} ].

End DemoService.

Module DemoHttp.
Import Demo DemoService.

Definition auth : GoogleAuthClient decimal world :=
  {| credentials_token := ret (JStr "token-1") |}.

(** Credentials that hold no token. *)
Definition no_token : GoogleAuthClient decimal world :=
  {| credentials_token := ret JNull |}.

(** An endpoint that answers every request with the given status and
    body. *)
Definition endpoint (status : Z) (reason body : string) : http_get decimal world :=
  fun url _ _ =>
    ret {| status_code := status; reason := reason; url := url; text := body |}.

End DemoHttp.

Module DemoFaults.
Import Demo DemoService.

(** A service that records the request and answers it with a fixed
    reply. *)
Definition replying (reply : value) : GoogleSheetWrapper decimal world :=
  {| _svc := fun call w => (Ok reply, (w ++ [call])%list) |}.

(** An entry of a batch reply without its "updatedRange". *)
Definition entry_without_range : value :=
  JDict [("updatedRows", JInt 1); ("updatedColumns", JInt 1); ("updatedCells", JInt 1);
         ("updatedData", JDict [("values", JList [JList [JStr "name2"]])])].

(** The reply to an update that clears a cell: no values are echoed. *)
Definition update_reply_without_values : value :=
  JDict [("spreadsheetId", JStr "spreadsheet-1");
         ("updatedRange", JStr "rows!A2");
         ("updatedRows", JInt 1);
         ("updatedColumns", JInt 1);
         ("updatedCells", JInt 1);
         ("updatedData", JDict [("range", JStr "rows!A2"); ("majorDimension", JStr "ROWS")])].

Definition append_reply_without_values : value :=
  JDict [("spreadsheetId", JStr "spreadsheet-1");
         ("updates",
          JDict [("updatedRange", JStr "rows!A2");
                 ("updatedRows", JInt 1);
                 ("updatedColumns", JInt 1);
                 ("updatedCells", JInt 1);
                 ("updatedData",
                  JDict [("range", JStr "rows!A2"); ("majorDimension", JStr "ROWS")])])].

(** A table of two columns and two rows; the second row starts with a null
    cell. *)
Definition people_text : string :=
  "{" ++ quoted "table" ++ ":{" ++ quoted "cols" ++ ":[{" ++ quoted "id" ++ ":"
  ++ quoted "A" ++ "," ++ quoted "type" ++ ":" ++ quoted "string" ++ "},{"
  ++ quoted "id" ++ ":" ++ quoted "B" ++ "," ++ quoted "type" ++ ":" ++ quoted "number"
  ++ "}]," ++ quoted "rows" ++ ":[{" ++ quoted "c" ++ ":[{" ++ quoted "v" ++ ":"
  ++ quoted "name1" ++ "},{" ++ quoted "v" ++ ":10.0," ++ quoted "f" ++ ":" ++ quoted "10"
  ++ "}]},{" ++ quoted "c" ++ ":[null,{" ++ quoted "v" ++ ":11.0," ++ quoted "f" ++ ":"
  ++ quoted "11" ++ "}]}]}}".

Definition people_table : value :=
  table [typed_col "A" "string"; typed_col "B" "number"]
    [JDict [("c", JList [JDict [("v", JStr "name1")];
                         JDict [("v", JFloat {| mantissa := 100; scale := 1 |});
                                ("f", JStr "10")]])];
     JDict [("c", JList [JNull;
                         JDict [("v", JFloat {| mantissa := 110; scale := 1 |});
                                ("f", JStr "11")]])]].

(** A reply that reports an error: it has no table. *)
Definition error_text : string :=
  "{" ++ quoted "version" ++ ":" ++ quoted "0.6" ++ "," ++ quoted "status" ++ ":"
  ++ quoted "error" ++ "," ++ quoted "errors" ++ ":[{" ++ quoted "reason" ++ ":"
  ++ quoted "invalid_query" ++ "}]}".

Definition error_reply : value :=
  JDict [("version", JStr "0.6"); ("status", JStr "error");
         ("errors", JList [JDict [("reason", JStr "invalid_query")]])].

(** The builtins of [Demo], with a [json.loads] that also knows
    [people_text] and [error_text]. *)
Definition people_builtins : PyBuiltins decimal := {|
  float_truthy := fun d => negb (Z.eqb (mantissa d) 0);
  float_eqb := decimal_eqb;
  float_eq_int := decimal_eq_int;
  py_repr := repr;
  py_int := int_;
  py_float := float_;
  json_loads := fun text =>
    if String.eqb text people_text then Ok people_table
    else if String.eqb text error_text then Ok error_reply
    else loads text
|}.

End DemoFaults.

(* ================================================================== *)
(** * Properties *)

Unset Implicit Arguments.

(** ** Basic facts about the Python operations *)

Section PythonOpsFacts.

Context {F : Type} `{PyBuiltins F}.

Notation json := (json F).

Lemma bind_result_ok {A B} (m : result F A) (k : A -> result F B) (a : A) :
  m = Ok a -> bind_result m k = k a.
Proof. intros ->. reflexivity. Qed.

(** Only a non-empty dict can be subscripted with a string. *)
Lemma getitem_truthy (x : json) (k : string) (v : json) :
  getitem x k = Ok v -> truthy x = true.
Proof.
  destruct x as [| b | n | f | s | items | entries]; simpl; try discriminate.
  destruct entries as [| kv rest]; simpl; [discriminate | reflexivity].
Qed.

Lemma key_eqb_str_l (k : json) (s : string) :
  key_eqb k (JStr s) = true -> k = JStr s.
Proof.
  destruct k; simpl; try discriminate.
  intros E. apply String.eqb_eq in E. now subst.
Qed.

Lemma key_eqb_str_r (k : json) (s : string) :
  key_eqb (JStr s) k = true -> k = JStr s.
Proof.
  destruct k; simpl; try discriminate.
  intros E. apply String.eqb_eq in E. now subst.
Qed.

Lemma key_eqb_str_refl (s : string) : key_eqb (JStr s : json) (JStr s) = true.
Proof. simpl. apply String.eqb_refl. Qed.

(** A write under a key that differs from [k] does not make [k] appear. *)
Lemma dict_find_put_absent (d : pydict) (k' v k : json) :
  key_eqb k' k = false ->
  dict_find d k = None ->
  dict_find (dict_put d k' v) k = None.
Proof.
  intros Hne. induction d as [| [k0 v0] rest IH]; simpl.
  - intros _. now rewrite Hne.
  - destruct (key_eqb k0 k) eqn:E0; [discriminate |].
    intros Hrest. destruct (key_eqb k0 k'); simpl; rewrite E0; auto.
Qed.

(** A write under another key keeps the value found under a string key. *)
Lemma dict_find_put_other (d : pydict) (k' v : json) (s : string) :
  key_eqb k' (JStr s) = false ->
  dict_find (dict_put d k' v) (JStr s) = dict_find d (JStr s).
Proof.
  intros Hne. induction d as [| [k0 v0] rest IH]; simpl.
  - now rewrite Hne.
  - destruct (key_eqb k0 k') eqn:E1; simpl.
    + destruct (key_eqb k0 (JStr s)) eqn:E0; [| reflexivity].
      apply key_eqb_str_l in E0. subst k0.
      apply key_eqb_str_r in E1. subst k'.
      now rewrite key_eqb_str_refl in Hne.
    + destruct (key_eqb k0 (JStr s)); [reflexivity | exact IH].
Qed.

(** A write under a string key is found under that key. *)
Lemma dict_find_put_same (d : pydict) (v : json) (s : string) :
  dict_find (dict_put d (JStr s) v) (JStr s) = Some v.
Proof.
  induction d as [| [k0 v0] rest IH]; simpl.
  - now rewrite String.eqb_refl.
  - destruct (key_eqb k0 (JStr s)) eqn:E0; simpl; rewrite E0; auto.
Qed.

End PythonOpsFacts.

(* ================================================================== *)
(** ** The cell decoder *)

Section DecoderFacts.

Context {F : Type} `{PyBuiltins F}.

Notation json := (json F).

(** A cell that is null or empty, or whose raw value is null, decodes to
    null whatever the column is. *)
Lemma parse_cell_null (cell col : json) :
  truthy cell = false \/ getitem cell "v" = Ok JNull ->
  _parse_cell cell col = Ok JNull.
Proof.
  intros [Hfalsy | Hv]; unfold _parse_cell.
  - now rewrite Hfalsy.
  - rewrite (getitem_truthy _ _ _ Hv), Hv. reflexivity.
Qed.

(** Past the null test, [_parse_cell] dispatches on [col["type"]]. *)
Lemma parse_cell_dispatch (cell col v typ : json) :
  getitem cell "v" = Ok v ->
  is_none v = false ->
  getitem col "type" = Ok typ ->
  _parse_cell cell col =
    if eq_str typ "boolean" then getitem cell "v"
    else if eq_str typ "number" then
      (f <- getitem cell "f" ;;
       has_dot <- py_contains "." f ;;
       if has_dot then (f <- getitem cell "f" ;; py_float f)
       else (f <- getitem cell "f" ;; py_int f))
    else if eq_str typ "string" then getitem cell "v"
    else if is_date_like typ then getitem cell "f"
    else Raise (ValueError ("cell type " ++ py_str typ ++ " is not supported")).
Proof.
  intros Hv Hnone Htyp. unfold _parse_cell.
  rewrite (getitem_truthy _ _ _ Hv). simpl.
  rewrite Hv. simpl. rewrite Hnone, Htyp. reflexivity.
Qed.

(** C1 (as amended).  For a cell that is not null (it has a raw value [v]
    that is not [None]) and a column whose type is not one of boolean,
    number, string, date, datetime, timeofday, [_parse_cell] raises no
    UnsupportedTypeError, a class the code does not have: it raises Python's
    [ValueError] with the message "cell type <type> is not supported", and
    returns no value. *)
Theorem parse_cell_unsupported_type_raises_ValueError (cell col v typ : json) :
  getitem cell "v" = Ok v ->
  is_none v = false ->
  getitem col "type" = Ok typ ->
  existsb (eq_str typ) decoded_types = false ->
  _parse_cell cell col
    = Raise (ValueError ("cell type " ++ py_str typ ++ " is not supported"))
  /\ (forall e, _parse_cell cell col = Raise e -> exn_class_name e = "ValueError").
Proof.
  intros Hv Hnone Htyp Hunsupported.
  assert (E : _parse_cell cell col
              = Raise (ValueError ("cell type " ++ py_str typ ++ " is not supported"))).
  { rewrite (parse_cell_dispatch _ _ _ _ Hv Hnone Htyp).
    unfold decoded_types in Hunsupported. simpl in Hunsupported.
    repeat (apply orb_false_elim in Hunsupported;
            destruct Hunsupported as [?E Hunsupported]).
    unfold is_date_like. simpl. rewrite E, E0, E1, E2, E3, E4. reflexivity. }
  split; [exact E |].
  intros e He. rewrite E in He. injection He as <-. reflexivity.
Qed.

(** C6.  For a non-null cell of a column of type number whose formatted
    representation [cell["f"]] is the string [s], the decoder parses [s]
    (and not the raw value [cell["v"]]): the result is [int(s)] when [s]
    contains no decimal point and [float(s)] when it does. *)
Theorem parse_cell_number_parses_formatted (cell col v : json) (s : string) :
  getitem cell "v" = Ok v ->
  is_none v = false ->
  getitem col "type" = Ok (JStr "number") ->
  getitem cell "f" = Ok (JStr s) ->
  _parse_cell cell col
    = if str_contains "." s then py_float (JStr s) else py_int (JStr s).
Proof.
  intros Hv Hnone Htyp Hf.
  rewrite (parse_cell_dispatch _ _ _ _ Hv Hnone Htyp). simpl.
  rewrite Hf. simpl. destruct (str_contains "." s); reflexivity.
Qed.

(** C8.  For a non-null cell of a column of type date, datetime or
    timeofday, the decoder returns [cell["f"]], the formatted value, as it
    is: no date or time object is built from it. *)
Theorem parse_cell_date_like_returns_formatted (cell col v f : json) (typ : string) :
  getitem cell "v" = Ok v ->
  is_none v = false ->
  getitem col "type" = Ok (JStr typ) ->
  In typ ["date"; "datetime"; "timeofday"] ->
  getitem cell "f" = Ok f ->
  _parse_cell cell col = Ok f.
Proof.
  intros Hv Hnone Htyp Hin Hf.
  rewrite (parse_cell_dispatch _ _ _ _ Hv Hnone Htyp).
  simpl in Hin.
  destruct Hin as [<- | [<- | [<- | []]]]; simpl; exact Hf.
Qed.

End DecoderFacts.

(* ================================================================== *)
(** ** The conversion of a query result *)

Section ConversionFacts.

Context {F : Type} `{PyBuiltins F}.

Notation json := (json F).

(** One turn of the inner loop on a null or empty cell: [continue]. *)
Lemma convert_cells_skip (cols cell : json) (idx : nat) (rest : list json) (row : pydict) :
  truthy cell = false ->
  convert_cells cols idx (cell :: rest) row = convert_cells cols (S idx) rest row.
Proof. intros E. simpl. now rewrite E. Qed.

(** One turn of the inner loop on a non-null cell, when it succeeds. *)
Lemma convert_cells_step (cols cell : json) (idx : nat) (rest : list json)
    (row row' : pydict) :
  truthy cell = true ->
  convert_cells cols idx (cell :: rest) row = Ok row' ->
  exists col value key,
    getitem_int cols idx = Ok col /\
    _parse_cell cell col = Ok value /\
    getitem col "id" = Ok key /\
    convert_cells cols (S idx) rest (dict_put row key value) = Ok row'.
Proof.
  intros E. simpl. rewrite E. simpl.
  destruct (getitem_int cols idx) as [col |] eqn:Hcol; simpl; [| discriminate].
  destruct (_parse_cell cell col) as [value |] eqn:Hvalue; simpl; [| discriminate].
  destruct (getitem col "id") as [key |] eqn:Hid; simpl; [| discriminate].
  unfold dict_setitem. destruct (hashable key); simpl; [| discriminate].
  intros Hrest. exists col, value, key. repeat split; auto.
Qed.

Lemma no_cell_writes_tail (cols cell : json) (idx : nat) (rest : list json) (k : json) :
  no_cell_writes cols idx (cell :: rest) k -> no_cell_writes cols (S idx) rest k.
Proof.
  intros Hno i c col id Hnth Htruthy Hcol Hid.
  apply (Hno (S i) c col id); auto.
  now rewrite Nat.add_succ_r.
Qed.

Lemma no_cell_writes_head (cols cell col id : json) (idx : nat) (rest : list json)
    (k : json) :
  no_cell_writes cols idx (cell :: rest) k ->
  truthy cell = true ->
  getitem_int cols idx = Ok col ->
  getitem col "id" = Ok id ->
  key_eqb id k = false.
Proof.
  intros Hno Htruthy Hcol Hid.
  apply (Hno 0 cell col id); auto.
  now rewrite Nat.add_0_r.
Qed.

(** A key that was absent and that no non-null cell writes stays absent. *)
Lemma convert_cells_keeps_absent (cols : json) (cells : list json) :
  forall (idx : nat) (row row' : pydict) (k : json),
    convert_cells cols idx cells row = Ok row' ->
    dict_find row k = None ->
    no_cell_writes cols idx cells k ->
    dict_find row' k = None.
Proof.
  induction cells as [| cell rest IH]; intros idx row row' k Hrun Habsent Hno.
  - simpl in Hrun. injection Hrun as <-. exact Habsent.
  - destruct (truthy cell) eqn:E.
    + destruct (convert_cells_step _ _ _ _ _ _ E Hrun)
        as (col & value & key & Hcol & _ & Hid & Hrest).
      apply (IH _ _ _ _ Hrest); [| eapply no_cell_writes_tail; eauto].
      apply dict_find_put_absent; auto.
      eapply no_cell_writes_head; eauto.
    + rewrite (convert_cells_skip _ _ _ _ _ E) in Hrun.
      apply (IH _ _ _ _ Hrun Habsent). eapply no_cell_writes_tail; eauto.
Qed.

(** What is stored under a string key survives cells that write elsewhere. *)
Lemma convert_cells_keeps_binding (cols : json) (cells : list json) :
  forall (idx : nat) (row row' : pydict) (s : string),
    convert_cells cols idx cells row = Ok row' ->
    no_cell_writes cols idx cells (JStr s) ->
    dict_find row' (JStr s) = dict_find row (JStr s).
Proof.
  induction cells as [| cell rest IH]; intros idx row row' s Hrun Hno.
  - simpl in Hrun. now injection Hrun as <-.
  - destruct (truthy cell) eqn:E.
    + destruct (convert_cells_step _ _ _ _ _ _ E Hrun)
        as (col & value & key & Hcol & _ & Hid & Hrest).
      rewrite (IH _ _ _ _ Hrest); [| eapply no_cell_writes_tail; eauto].
      apply dict_find_put_other. eapply no_cell_writes_head; eauto.
    + rewrite (convert_cells_skip _ _ _ _ _ E) in Hrun.
      apply (IH _ _ _ _ Hrun). eapply no_cell_writes_tail; eauto.
Qed.

(** A cell whose raw value is null is stored as null under its column id,
    and stays so when no later cell of the row writes that id. *)
Lemma convert_cells_null_value (cols : json) (cells : list json) :
  forall (idx i : nat) (row row' : pydict) (cell col : json) (id : string),
    convert_cells cols idx cells row = Ok row' ->
    nth_error cells i = Some cell ->
    getitem cell "v" = Ok JNull ->
    getitem_int cols (idx + i) = Ok col ->
    getitem col "id" = Ok (JStr id) ->
    no_cell_writes cols (idx + S i) (skipn (S i) cells) (JStr id) ->
    dict_find row' (JStr id) = Some JNull.
Proof.
  induction cells as [| c rest IH];
    intros idx i row row' cell col id Hrun Hnth Hv Hcol Hid Hlater.
  - destruct i; discriminate.
  - destruct i as [| i].
    + simpl in Hnth. injection Hnth as ->.
      rewrite Nat.add_0_r in Hcol. rewrite Nat.add_1_r in Hlater. simpl in Hlater.
      destruct (convert_cells_step _ _ _ _ _ _ (getitem_truthy _ _ _ Hv) Hrun)
        as (col' & value & key & Hcol' & Hvalue & Hid' & Hrest).
      rewrite Hcol in Hcol'. injection Hcol' as <-.
      rewrite (parse_cell_null cell col (or_intror Hv)) in Hvalue.
      injection Hvalue as <-.
      rewrite Hid in Hid'. injection Hid' as <-.
      rewrite (convert_cells_keeps_binding _ _ _ _ _ _ Hrest Hlater).
      apply dict_find_put_same.
    + simpl in Hnth. rewrite Nat.add_succ_r in Hcol, Hlater.
      change (skipn (S (S i)) (c :: rest)) with (skipn (S i) rest) in Hlater.
      destruct (truthy c) eqn:E.
      * destruct (convert_cells_step _ _ _ _ _ _ E Hrun)
          as (col' & value & key & _ & _ & _ & Hrest).
        exact (IH (S idx) i _ _ _ _ _ Hrest Hnth Hv Hcol Hid Hlater).
      * rewrite (convert_cells_skip _ _ _ _ _ E) in Hrun.
        exact (IH (S idx) i _ _ _ _ _ Hrun Hnth Hv Hcol Hid Hlater).
Qed.

(** The mapping decoded from the cells of one row. *)
Lemma convert_cells_null_cells (cols : json) (cells : list json) (row : pydict) :
  convert_cells cols 0 cells [] = Ok row ->
  null_cells_absent cols cells row /\ null_values_stored cols cells row.
Proof.
  intros Hrun. split.
  - intros k Hno. now apply (convert_cells_keeps_absent _ _ _ _ _ k Hrun).
  - intros i cell col id Hnth Hv Hcol Hid Hlater. split.
    + apply parse_cell_null. now right.
    + now apply (convert_cells_null_value cols cells 0 i _ _ cell col id Hrun).
Qed.

(** The outer loop appends one mapping per row, in order, each decoded
    from the cells of its row starting from the empty dict. *)
Lemma convert_rows_each (cols : json) (rows : list json) :
  forall acc results : list pydict,
    convert_rows cols rows acc = Ok results ->
    exists mappings,
      results = (acc ++ mappings)%list /\
      Forall2 (fun row mapping =>
                 exists cells,
                   row_cells row = Ok cells /\
                   convert_cells cols 0 cells [] = Ok mapping)
              rows mappings.
Proof.
  induction rows as [| row rest IH]; intros acc results Hrun.
  - simpl in Hrun. injection Hrun as <-. exists []. rewrite app_nil_r. split; constructor.
  - simpl in Hrun.
    destruct (getitem row "c") as [c |] eqn:Hc; simpl in Hrun; [| discriminate].
    destruct (py_iter c) as [cells |] eqn:Hcells; simpl in Hrun; [| discriminate].
    destruct (convert_cells cols 0 cells []) as [mapping |] eqn:Hmapping;
      simpl in Hrun; [| discriminate].
    destruct (IH _ _ Hrun) as (mappings & -> & Hall).
    exists (mapping :: mappings). split.
    + now rewrite <- app_assoc.
    + constructor; [| exact Hall].
      exists cells. split; [| exact Hmapping].
      unfold row_cells. rewrite Hc. exact Hcells.
Qed.

Lemma convert_query_result_table (response : string) :
  _convert_query_result response
  = (t <- response_table response ;; convert_rows (fst t) (snd t) []).
Proof.
  unfold _convert_query_result, response_table.
  destruct (str_index "{" response) as [start |]; simpl; [| reflexivity].
  destruct (str_rindex "}" response) as [end_ |]; simpl; [| reflexivity].
  destruct (json_loads _) as [resp |]; simpl; [| reflexivity].
  destruct (getitem resp "table") as [table |]; simpl; [| reflexivity].
  destruct (getitem table "cols") as [cols |]; simpl; [| reflexivity].
  destruct (getitem table "rows") as [rows |]; simpl; [| reflexivity].
  destruct (py_iter rows) as [items |]; reflexivity.
Qed.

(** C2 (as amended).  For every query response that is converted, each
    returned mapping is decoded from the cells of the row at the same
    position, and in it a null or empty cell yields no entry: a column id
    that no non-null cell of the row is stored under is absent from the
    mapping, it is not mapped to null.  A non-empty cell whose raw value is
    null is what yields null under its column id (as long as no later cell
    of the row is stored under the same id), and this for every column type,
    since [_parse_cell] returns null for such a cell whatever the column. *)
Theorem null_cell_yields_no_entry (response : string) (results : list pydict) :
  _convert_query_result response = Ok results ->
  exists cols rows,
    response_table response = Ok (cols, rows) /\
    Forall2 (fun row mapping =>
               exists cells,
                 row_cells row = Ok cells /\
                 null_cells_absent cols cells mapping /\
                 null_values_stored cols cells mapping)
            rows results.
Proof.
  rewrite convert_query_result_table.
  destruct (response_table response) as [[cols rows] |]; simpl; [| discriminate].
  intros Hrun. exists cols, rows. split; [reflexivity |].
  destruct (convert_rows_each _ _ _ _ Hrun) as (mappings & -> & Hall). simpl.
  revert Hall. apply Forall2_impl.
  intros row mapping (cells & Hcells & Hmapping).
  exists cells. split; [exact Hcells |].
  now apply convert_cells_null_cells.
Qed.

(** C9.  A query response whose JSON object has a table with no rows is
    converted to the empty list; nothing is raised. *)
Theorem convert_query_result_no_rows (response : string) (start end_ : nat)
    (resp table cols : json) :
  str_index "{" response = (Ok start : result F nat) ->
  str_rindex "}" response = (Ok end_ : result F nat) ->
  json_loads (str_slice response start (end_ + 1)) = Ok resp ->
  getitem resp "table" = Ok table ->
  getitem table "cols" = Ok cols ->
  getitem table "rows" = Ok (JList []) ->
  _convert_query_result response = Ok [].
Proof.
  intros Hstart Hend Hloads Htable Hcols Hrows.
  unfold _convert_query_result.
  rewrite Hstart. simpl. rewrite Hend. simpl. rewrite Hloads. simpl.
  rewrite Htable. simpl. rewrite Hcols. simpl. rewrite Hrows. reflexivity.
Qed.

End ConversionFacts.

(* ================================================================== *)
(** ** The wrapper, the session and the scratchpad *)

Section ServiceFacts.

Context {F : Type} `{PyBuiltins F}.
Context {A1Range : Type} `{A1RangeOps F A1Range}.
Context {World : Type}.

Notation json := (json F).
Notation M := (M F World).
Notation GoogleSheetWrapper := (GoogleSheetWrapper F World).
Notation GoogleSheetSession := (GoogleSheetSession F World).
Notation GoogleSheetScratchpad := (GoogleSheetScratchpad F A1Range World).
Notation UpdateRowsResult := (UpdateRowsResult.t F A1Range).



(** The [data] of the request lists the requests in the order given. *)
Lemma batch_update_body_data (requests : list (BatchUpdateRowsRequest.t F A1Range)) :
  exists data,
    getitem (batch_update_body requests) "data" = Ok (JList data) /\
    length data = length requests.
Proof.
  eexists. split; [reflexivity |]. apply length_map.
Qed.




(** [try ... except Exception: pass] never raises. *)
Lemma try_except_pass_never_raises {A} (m : M A) (w : World) :
  fst (try_except_pass m w) = Ok tt.
Proof. reflexivity. Qed.

Lemma ensure_never_raises (self : GoogleSheetSession) (w : World) :
  fst (_ensure self w) = Ok tt.
Proof. unfold _ensure. apply try_except_pass_never_raises. Qed.

(** C10.  Constructing a session never raises, whatever the wrapper and the
    state of the service: what the sheet-creation step raises is dropped and
    the session is returned with its three attributes set. *)
Theorem session_init_never_raises (wrapper : GoogleSheetWrapper)
    (id name : string) (w : World) :
  exists w',
    GoogleSheetSession_init wrapper id name w
    = (Ok {| spreadsheet_id := id; sheet_name := name; _wrapper := wrapper |}, w').
Proof.
  unfold GoogleSheetSession_init, bind.
  set (self := {| spreadsheet_id := id; sheet_name := name; _wrapper := wrapper |}).
  pose proof (ensure_never_raises self w) as Hok.
  destruct (_ensure self w) as [r w1]. simpl in Hok. subst r.
  exists w1. reflexivity.
Qed.

(** What [_book_scratchpad_cell] does when it succeeds: the overwrite of the
    sentinel is confirmed with a range, the method stores that range on the
    object, and the call itself evaluates to [None]. *)
Lemma book_scratchpad_cell_ok (self self' : GoogleSheetScratchpad)
    (returned : option A1Range) (w w' : World) :
  _book_scratchpad_cell self w = (Ok (self', returned), w') ->
  exists a1_range result,
    from_notation (JStr (sheet_name (_session self))) = Ok a1_range /\
    Session_overwrite_rows (_session self) a1_range
      (JList [JList [JStr SCRATCHPAD_BOOKED_VALUE]]) w = (Ok result, w') /\
    self' = set_scratchpad_cell self (Some (InsertRowsResult.updated_range result)) /\
    returned = None.
Proof.
  unfold _book_scratchpad_cell, bind, lift, ret.
  destruct (from_notation (JStr (sheet_name (_session self)))) as [a1_range |];
    [| discriminate].
  destruct (Session_overwrite_rows (_session self) a1_range _ w)
    as [[result |] w1] eqn:Hover; [| discriminate].
  intros E. injection E as <- <- <-.
  exists a1_range, result. auto.
Qed.

(** C5 (what the code does).  After a successful construction the recorded
    scratchpad cell is [None], not the range the overwrite of the sentinel
    confirmed: [__init__] assigns the value of the call of
    [_book_scratchpad_cell], which is [None], over the range the method had
    stored. *)
Theorem scratchpad_init_records_None (session : GoogleSheetSession)
    (pad : GoogleSheetScratchpad) (w w' : World) :
  GoogleSheetScratchpad_init session w = (Ok pad, w') ->
  exists a1_range result,
    from_notation (JStr (sheet_name session)) = Ok a1_range /\
    Session_overwrite_rows session a1_range
      (JList [JList [JStr SCRATCHPAD_BOOKED_VALUE]]) w = (Ok result, w') /\
    _scratchpad_cell pad = Assigned None /\
    _scratchpad_cell pad <> Assigned (Some (InsertRowsResult.updated_range result)).
Proof.
  unfold GoogleSheetScratchpad_init, bind, ret.
  destruct (_book_scratchpad_cell _ w) as [[[self' returned] |] w1] eqn:Hbook;
    [| discriminate].
  intros E. injection E as <- <-.
  destruct (book_scratchpad_cell_ok _ _ _ _ _ Hbook)
    as (a1_range & result & Hrange & Hover & _ & ->).
  exists a1_range, result. simpl. repeat split; auto. discriminate.
Qed.

(** C7 (what the code does).  [execute] raises AttributeError on the lookup
    of [self._wrapper], for every scratchpad and formula: no request reaches
    the service (the remote state is unchanged) and no value is returned. *)
Theorem execute_raises_AttributeError (pad : GoogleSheetScratchpad)
    (formula : string) (w : World) :
  execute pad formula w = (Raise (AttributeError "GoogleSheetScratchpad" "_wrapper"), w).
Proof. reflexivity. Qed.

(** C4 (as amended).  The scratchpad has no released state: [close] takes
    the object and gives none back, and an [execute] that follows a call of
    [close] does not fail with InvalidOperationError. *)
Theorem execute_after_close_not_InvalidOperationError (pad : GoogleSheetScratchpad)
    (formula msg : string) (w : World) :
  fst (execute pad formula (snd (close pad w))) <> Raise (InvalidOperationError msg).
Proof.
  unfold execute, bind, lift, Scratchpad_wrapper. simpl. discriminate.
Qed.

End ServiceFacts.

(* ================================================================== *)
(** ** More on the decoder *)

Section StringFacts.

Lemma prefix_char (c a : ascii) (x : string) :
  String.prefix (String c EmptyString) (String a x)
  = if ascii_dec c a then true else false.
Proof.
  simpl. destruct (ascii_dec c a); [destruct x |]; reflexivity.
Qed.

Lemma index_char_cons (c a : ascii) (s : string) :
  String.index 0 (String c EmptyString) (String a s)
  = if ascii_dec c a then Some 0%nat
    else option_map S (String.index 0 (String c EmptyString) s).
Proof.
  cbn [String.index]. rewrite prefix_char.
  destruct (ascii_dec c a); [reflexivity |].
  destruct (String.index 0 (String c EmptyString) s); reflexivity.
Qed.

(** The first occurrence of a character that the text before does not
    contain. *)
Lemma index_char_app (c : ascii) (pre rest : string) :
  String.index 0 (String c EmptyString) pre = None ->
  String.index 0 (String c EmptyString) (pre ++ String c rest) = Some (String.length pre).
Proof.
  induction pre as [| a pre IH]; intros Hnone.
  - simpl String.append. rewrite index_char_cons.
    destruct (ascii_dec c c); [reflexivity | congruence].
  - rewrite index_char_cons in Hnone.
    change (String a pre ++ String c rest) with (String a (pre ++ String c rest)).
    rewrite index_char_cons.
    destruct (ascii_dec c a); [discriminate |].
    destruct (String.index 0 (String c EmptyString) pre); [discriminate |].
    rewrite IH by reflexivity. reflexivity.
Qed.

Lemma rindex_char_none (c : ascii) (s : string) :
  forall pos,
    String.index 0 (String c EmptyString) s = None ->
    rindex_from (String c EmptyString) s pos = None.
Proof.
  induction s as [| a s IH]; intros pos Hnone.
  - reflexivity.
  - rewrite index_char_cons in Hnone.
    cbn [rindex_from]. rewrite prefix_char.
    destruct (ascii_dec c a); [discriminate |].
    destruct (String.index 0 (String c EmptyString) s); [discriminate |].
    now rewrite IH.
Qed.

(** The last occurrence of a character that the text after does not
    contain. *)
Lemma rindex_char_app (c : ascii) (s post : string) :
  forall pos,
    String.index 0 (String c EmptyString) post = None ->
    rindex_from (String c EmptyString) (s ++ String c post) pos
    = Some (pos + String.length s)%nat.
Proof.
  induction s as [| a s IH]; intros pos Hnone.
  - simpl String.append. cbn [rindex_from].
    rewrite (rindex_char_none c post (S pos) Hnone), prefix_char.
    destruct (ascii_dec c c); [| congruence].
    now rewrite Nat.add_0_r.
  - change (String a s ++ String c post) with (String a (s ++ String c post)).
    cbn [rindex_from]. rewrite (IH (S pos) Hnone).
    simpl String.length. now rewrite Nat.add_succ_r.
Qed.

Lemma substring_prefix_app (text post : string) :
  String.substring 0 (String.length text) (text ++ post) = text.
Proof.
  induction text as [| a text IH]; simpl.
  - destruct post; reflexivity.
  - now rewrite IH.
Qed.

Lemma substring_middle (pre text post : string) :
  String.substring (String.length pre) (String.length text) (pre ++ text ++ post) = text.
Proof.
  induction pre as [| a pre IH]; simpl.
  - apply substring_prefix_app.
  - exact IH.
Qed.

Lemma append_assoc (a b c : string) : ((a ++ b) ++ c = a ++ (b ++ c))%string.
Proof. induction a as [| x a IH]; simpl; [reflexivity | now rewrite IH]. Qed.

Lemma length_append (a b : string) :
  String.length (a ++ b) = (String.length a + String.length b)%nat.
Proof. induction a as [| x a IH]; simpl; [reflexivity | now rewrite IH]. Qed.

End StringFacts.

Section DecoderExtras.

Context {F : Type} `{PyBuiltins F}.

Notation json := (json F).

(** The slice [response[start : end + 1]] of a text wrapped between a
    prefix without opening brace and a suffix without closing brace. *)
Lemma braces_slice (pre body post : string) :
  str_contains "{" pre = false ->
  str_contains "}" post = false ->
  let response := pre ++ "{" ++ body ++ "}" ++ post in
  exists start end_,
    str_index "{" response = (Ok start : result F nat) /\
    str_rindex "}" response = (Ok end_ : result F nat) /\
    str_slice response start (end_ + 1) = "{" ++ body ++ "}".
Proof.
  intros Hpre Hpost response.
  unfold str_contains in Hpre, Hpost.
  destruct (String.index 0 "{" pre) eqn:Hipre; [discriminate |].
  destruct (String.index 0 "}" post) eqn:Hipost; [discriminate |].
  exists (String.length pre), (String.length pre + S (String.length body))%nat.
  split; [| split].
  - unfold str_index, response.
    change ("{" ++ body ++ "}" ++ post) with (String "{" (body ++ "}" ++ post)).
    now rewrite (index_char_app "{" pre _ Hipre).
  - unfold str_rindex, response.
    replace (pre ++ "{" ++ body ++ "}" ++ post)
      with ((pre ++ "{" ++ body) ++ String "}" post)
      by (now rewrite !append_assoc).
    rewrite (rindex_char_app "}" (pre ++ "{" ++ body) post 0 Hipost).
    rewrite length_append. reflexivity.
  - unfold str_slice, response.
    replace (String.length pre + S (String.length body) + 1 - String.length pre)%nat
      with (String.length ("{" ++ body ++ "}")).
    + replace (pre ++ "{" ++ body ++ "}" ++ post)
        with (pre ++ ("{" ++ body ++ "}") ++ post).
      * apply substring_middle.
      * f_equal. simpl. f_equal. now rewrite append_assoc.
    + simpl. rewrite length_append. simpl. lia.
Qed.

(** X1.  What surrounds the JSON object in the response text is ignored:
    with a prefix that has no opening brace and a suffix that has no
    closing brace (such as the call of the response handler), the conversion
    is that of the text from the first opening to the last closing brace. *)
Theorem convert_query_result_ignores_wrapper (pre body post : string) :
  str_contains "{" pre = false ->
  str_contains "}" post = false ->
  _convert_query_result (pre ++ "{" ++ body ++ "}" ++ post)
  = _convert_query_result ("{" ++ body ++ "}").
Proof.
  intros Hpre Hpost.
  destruct (braces_slice pre body post Hpre Hpost) as (s1 & e1 & Hs1 & He1 & Hslice1).
  destruct (braces_slice "" body "" eq_refl eq_refl) as (s2 & e2 & Hs2 & He2 & Hslice2).
  simpl in Hs2, He2, Hslice2.
  unfold _convert_query_result.
  rewrite Hs1, He1. cbn [bind_result]. rewrite Hslice1.
  change ("{" ++ body ++ "}") with (String "{" (body ++ "}")).
  rewrite Hs2, He2. cbn [bind_result]. rewrite Hslice2.
  reflexivity.
Qed.

(** X2.  A response text without an opening brace, or without a closing
    brace, is rejected with the ValueError of [str.index] or [str.rindex];
    [json.loads] is not reached. *)
Theorem convert_query_result_without_braces (response : string) :
  str_contains "{" response = false \/ str_contains "}" response = false ->
  _convert_query_result response = Raise (ValueError "substring not found").
Proof.
  intros Hmissing. unfold _convert_query_result, str_index, str_rindex.
  unfold str_contains in Hmissing.
  destruct (String.index 0 "{" response) eqn:Hopen.
  - destruct Hmissing as [Habs | Hclose]; [discriminate |].
    destruct (String.index 0 "}" response) eqn:Hi; [discriminate |].
    simpl. now rewrite (rindex_char_none "}" response 0 Hi).
  - reflexivity.
Qed.

End DecoderExtras.

Section ConversionExtras.

Context {F : Type} `{PyBuiltins F}.

Notation json := (json F).

(** X3.  For a non-null cell of a column of type boolean or string the
    decoder returns the raw value [cell["v"]] as it is, whatever kind of
    value it is; the formatted value is not read. *)
Theorem parse_cell_boolean_string_returns_raw (cell col v : json) (typ : string) :
  getitem cell "v" = Ok v ->
  is_none v = false ->
  getitem col "type" = Ok (JStr typ) ->
  In typ ["boolean"; "string"] ->
  _parse_cell cell col = Ok v.
Proof.
  intros Hv Hnone Htyp Hin.
  rewrite (parse_cell_dispatch _ _ _ _ Hv Hnone Htyp).
  simpl in Hin. destruct Hin as [<- | [<- | []]]; simpl; exact Hv.
Qed.

(** X4.  A non-null cell that carries no formatted value (no key "f")
    cannot be decoded in a column of type number, date, datetime or
    timeofday: the decoder raises KeyError for "f". *)
Theorem parse_cell_without_formatted_value (entries : list (string * json))
    (col v : json) (typ : string) :
  dict_lookup "v" entries = Some v ->
  is_none v = false ->
  dict_lookup "f" entries = None ->
  getitem col "type" = Ok (JStr typ) ->
  In typ ["number"; "date"; "datetime"; "timeofday"] ->
  _parse_cell (JDict entries) col = Raise (KeyError (JStr "f")).
Proof.
  intros Hv Hnone Hf Htyp Hin.
  assert (Hgetv : getitem (JDict entries) "v" = Ok v) by (simpl; now rewrite Hv).
  assert (Hgetf : getitem (JDict entries) "f" = Raise (KeyError (JStr "f")))
    by (simpl; now rewrite Hf).
  rewrite (parse_cell_dispatch _ _ _ _ Hgetv Hnone Htyp).
  simpl in Hin.
  destruct Hin as [<- | [<- | [<- | [<- | []]]]]; simpl eq_str; cbv iota;
    try (unfold is_date_like; simpl existsb; cbv iota);
    rewrite Hgetf; reflexivity.
Qed.

(** The value decoded from a cell is found under its column id once the
    row is done, when no later cell is stored under that id. *)
Lemma convert_cells_value (cols : json) (cells : list json) :
  forall (idx i : nat) (row row' : pydict) (cell col : json) (id : string),
    convert_cells cols idx cells row = Ok row' ->
    nth_error cells i = Some cell ->
    truthy cell = true ->
    getitem_int cols (idx + i) = Ok col ->
    getitem col "id" = Ok (JStr id) ->
    no_cell_writes cols (idx + S i) (skipn (S i) cells) (JStr id) ->
    exists value,
      _parse_cell cell col = Ok value /\ dict_find row' (JStr id) = Some value.
Proof.
  induction cells as [| c rest IH];
    intros idx i row row' cell col id Hrun Hnth Htruthy Hcol Hid Hlater.
  - destruct i; discriminate.
  - destruct i as [| i].
    + simpl in Hnth. injection Hnth as ->.
      rewrite Nat.add_0_r in Hcol. rewrite Nat.add_1_r in Hlater. simpl in Hlater.
      destruct (convert_cells_step _ _ _ _ _ _ Htruthy Hrun)
        as (col' & value & key & Hcol' & Hvalue & Hid' & Hrest).
      rewrite Hcol in Hcol'. injection Hcol' as <-.
      rewrite Hid in Hid'. injection Hid' as <-.
      exists value. split; [exact Hvalue |].
      rewrite (convert_cells_keeps_binding _ _ _ _ _ _ Hrest Hlater).
      apply dict_find_put_same.
    + simpl in Hnth. rewrite Nat.add_succ_r in Hcol, Hlater.
      change (skipn (S (S i)) (c :: rest)) with (skipn (S i) rest) in Hlater.
      destruct (truthy c) eqn:E.
      * destruct (convert_cells_step _ _ _ _ _ _ E Hrun)
          as (col' & value & key & _ & _ & _ & Hrest).
        exact (IH (S idx) i _ _ _ _ _ Hrest Hnth Htruthy Hcol Hid Hlater).
      * rewrite (convert_cells_skip _ _ _ _ _ E) in Hrun.
        exact (IH (S idx) i _ _ _ _ _ Hrun Hnth Htruthy Hcol Hid Hlater).
Qed.

(** X5.  For every query response that is converted, each returned mapping
    gives, under the id of a column, the value [_parse_cell] decodes from
    the non-null cell at that column's position in the row (when column ids
    repeat, the last cell stored under the id is the one found). *)
Theorem decoded_value_under_column_id (response : string) (results : list pydict) :
  _convert_query_result response = Ok results ->
  exists cols rows,
    response_table response = Ok (cols, rows) /\
    Forall2 (fun row mapping =>
               exists cells,
                 row_cells row = Ok cells /\
                 forall i cell col id,
                   nth_error cells i = Some cell ->
                   truthy cell = true ->
                   getitem_int cols i = Ok col ->
                   getitem col "id" = Ok (JStr id) ->
                   no_cell_writes cols (S i) (skipn (S i) cells) (JStr id) ->
                   exists value,
                     _parse_cell cell col = Ok value /\
                     dict_find mapping (JStr id) = Some value)
            rows results.
Proof.
  rewrite convert_query_result_table.
  destruct (response_table response) as [[cols rows] |]; simpl; [| discriminate].
  intros Hrun. exists cols, rows. split; [reflexivity |].
  destruct (convert_rows_each _ _ _ _ Hrun) as (mappings & -> & Hall). simpl.
  revert Hall. apply Forall2_impl.
  intros row mapping (cells & Hcells & Hmapping).
  exists cells. split; [exact Hcells |].
  intros i cell col id Hnth Htruthy Hcol Hid Hlater.
  exact (convert_cells_value cols cells 0 i _ _ cell col id
           Hmapping Hnth Htruthy Hcol Hid Hlater).
Qed.

(** X6.  Null and empty cells keep their place in the row: after a run of
    them the next cell is decoded with the column at its own position, the
    count of cells before it, null ones included. *)
Theorem convert_cells_null_prefix (cols : json) (nulls rest : list json) :
  forall (idx : nat) (row : pydict),
    Forall (fun cell => truthy cell = false) nulls ->
    convert_cells cols idx (nulls ++ rest) row
    = convert_cells cols (idx + length nulls) rest row.
Proof.
  induction nulls as [| cell nulls IH]; intros idx row Hnulls.
  - simpl. now rewrite Nat.add_0_r.
  - inversion Hnulls as [| ? ? Hcell Hrest]; subst.
    change ((cell :: nulls) ++ rest)%list with (cell :: (nulls ++ rest))%list.
    rewrite (convert_cells_skip _ _ _ _ _ Hcell), (IH (S idx) row Hrest).
    simpl length. now rewrite Nat.add_succ_r.
Qed.

(** X7.  A row with a non-null cell at a position beyond the list of
    columns cannot be converted: whatever the other cells are, the inner
    loop does not return a mapping.  (A null cell at such a position is
    skipped before the column is looked up.) *)
Theorem convert_cells_beyond_columns (columns cells : list json) :
  forall (idx i : nat) (row : pydict) (cell : json),
    nth_error cells i = Some cell ->
    truthy cell = true ->
    length columns <= idx + i ->
    forall row', convert_cells (JList columns) idx cells row <> Ok row'.
Proof.
  induction cells as [| c rest IH]; intros idx i row cell Hnth Htruthy Hbound row' Hrun.
  - destruct i; discriminate.
  - destruct i as [| i].
    + simpl in Hnth. injection Hnth as ->.
      destruct (convert_cells_step _ _ _ _ _ _ Htruthy Hrun)
        as (col & _ & _ & Hcol & _).
      simpl in Hcol. rewrite Nat.add_0_r in Hbound.
      apply nth_error_None in Hbound. rewrite Hbound in Hcol. discriminate.
    + simpl in Hnth. rewrite Nat.add_succ_r in Hbound.
      destruct (truthy c) eqn:E.
      * destruct (convert_cells_step _ _ _ _ _ _ E Hrun)
          as (col & value & key & _ & _ & _ & Hrest).
        exact (IH (S idx) i _ cell Hnth Htruthy Hbound row' Hrest).
      * rewrite (convert_cells_skip _ _ _ _ _ E) in Hrun.
        exact (IH (S idx) i _ cell Hnth Htruthy Hbound row' Hrun).
Qed.

Lemma convert_cells_all_null (cols : json) (cells : list json) (idx : nat) (row : pydict) :
  Forall (fun cell => truthy cell = false) cells ->
  convert_cells cols idx cells row = Ok row.
Proof.
  intros Hnull. revert idx.
  induction Hnull as [| cell rest Hcell _ IH]; intros idx; [reflexivity |].
  rewrite (convert_cells_skip _ _ _ _ _ Hcell). apply IH.
Qed.

Lemma convert_rows_all_null (cols : json) (rows : list json) :
  forall acc : list pydict,
    Forall (fun row =>
              exists cells,
                row_cells row = Ok cells /\
                Forall (fun cell => truthy cell = false) cells) rows ->
    convert_rows cols rows acc = Ok (acc ++ map (fun _ => []) rows)%list.
Proof.
  induction rows as [| row rest IH]; intros acc Hrows.
  - simpl. now rewrite app_nil_r.
  - inversion Hrows as [| ? ? (cells & Hcells & Hnull) Hrest]; subst.
    unfold row_cells in Hcells. simpl.
    destruct (getitem row "c") as [c |]; simpl in Hcells; [| discriminate].
    simpl. rewrite Hcells. simpl.
    rewrite (convert_cells_all_null cols cells 0 [] Hnull). simpl.
    rewrite (IH _ Hrest), <- app_assoc. reflexivity.
Qed.

(** X8.  Rows whose cells are all null or empty are not dropped: each gives
    an empty mapping, so the result has one entry per row, and the columns
    of the table are not consulted at all. *)
Theorem convert_query_result_all_null_rows (response : string) (cols : json)
    (rows : list json) :
  response_table response = Ok (cols, rows) ->
  Forall (fun row =>
            exists cells,
              row_cells row = Ok cells /\
              Forall (fun cell => truthy cell = false) cells) rows ->
  _convert_query_result response = Ok (map (fun _ => []) rows).
Proof.
  intros Htable Hrows.
  rewrite convert_query_result_table, Htable. simpl.
  exact (convert_rows_all_null cols rows [] Hrows).
Qed.

(** X20.  A reply of the endpoint whose JSON object has no "table" entry
    (as a reply that reports an error has) makes the conversion raise
    KeyError for "table". *)
Theorem convert_query_result_without_table (response : string) (start end_ : nat)
    (entries : list (string * json)) :
  str_index "{" response = (Ok start : result F nat) ->
  str_rindex "}" response = (Ok end_ : result F nat) ->
  json_loads (str_slice response start (end_ + 1)) = Ok (JDict entries) ->
  dict_lookup "table" entries = None ->
  _convert_query_result response = Raise (KeyError (JStr "table")).
Proof.
  intros Hstart Hend Hloads Hmissing.
  unfold _convert_query_result.
  rewrite Hstart. cbn [bind_result]. rewrite Hend. cbn [bind_result].
  rewrite Hloads. simpl. now rewrite Hmissing.
Qed.

End ConversionExtras.

(* ================================================================== *)
(** ** More on the wrapper, the session and the scratchpad *)

Section WrapperExtras.

Context {F : Type} `{PyBuiltins F}.
Context {A1Range : Type} `{A1RangeOps F A1Range}.
Context {World : Type}.

Notation json := (json F).
Notation M := (M F World).
Notation GoogleSheetWrapper := (GoogleSheetWrapper F World).
Notation GoogleSheetSession := (GoogleSheetSession F World).
Notation GoogleSheetScratchpad := (GoogleSheetScratchpad F A1Range World).

(** X9.  The request of [batch_update_rows] lists the requests in the
    order given: the i-th entry of [data] carries the notation of the i-th
    request's range, its values, and the major dimension "ROWS". *)
Theorem batch_update_body_entries
    (requests : list (BatchUpdateRowsRequest.t F A1Range)) (i : nat)
    (req : BatchUpdateRowsRequest.t F A1Range) :
  nth_error requests i = Some req ->
  exists data entry,
    getitem (batch_update_body requests) "data" = Ok (JList data) /\
    length data = length requests /\
    nth_error data i = Some entry /\
    getitem entry "range" = Ok (JStr (a1_str (BatchUpdateRowsRequest.range req))) /\
    getitem entry "values" = Ok (BatchUpdateRowsRequest.values req) /\
    getitem entry "majorDimension" = Ok (JStr "ROWS").
Proof.
  intros Hnth. eexists. eexists.
  split; [reflexivity |].
  split; [apply length_map |].
  split; [apply (map_nth_error _ _ _ Hnth) |].
  repeat split; reflexivity.
Qed.

Lemma batch_update_results_bad_entry (good : list json) :
  forall (bad : json) (rest : list json) (acc : list (UpdateRowsResult.t F A1Range))
         (e : exn F),
    Forall (fun response => exists r, built_from response r) good ->
    UpdateRowsResult_of bad = Raise e ->
    batch_update_results (good ++ bad :: rest) acc = Raise e.
Proof.
  induction good as [| response good IH]; intros bad rest acc e Hgood Hbad.
  - simpl. now rewrite Hbad.
  - inversion Hgood as [| ? ? [r Hr] Hgood']; subst.
    simpl. unfold built_from in Hr. rewrite Hr. simpl.
    now apply IH.
Qed.

(** X10.  [batch_update_rows] returns all the results or none: when an
    entry of the response list lacks a field (or its range does not parse),
    the call raises the error of the first such entry, although the service
    has applied the batch, and the results built so far are lost. *)
Theorem batch_update_rows_first_bad_entry
    (self : GoogleSheetWrapper) (spreadsheet_id : string)
    (requests : list (BatchUpdateRowsRequest.t F A1Range))
    (w w' : World) (resp bad : json) (good rest : list json) (e : exn F) :
  _svc self (ValuesBatchUpdate spreadsheet_id (batch_update_body requests)) w
    = (Ok resp, w') ->
  getitem resp "responses" = Ok (JList (good ++ bad :: rest)) ->
  Forall (fun response => exists r, built_from response r) good ->
  UpdateRowsResult_of bad = Raise e ->
  batch_update_rows self spreadsheet_id requests w = (Raise e, w').
Proof.
  intros Hcall Hresponses Hgood Hbad.
  unfold batch_update_rows, bind, lift. rewrite Hcall, Hresponses. simpl.
  now rewrite (batch_update_results_bad_entry good bad rest [] e Hgood Hbad).
Qed.

(** X11.  A reply of the service without a "responses" entry makes
    [batch_update_rows] raise KeyError, for every list of requests, the
    empty one included; the request has been executed by then. *)
Theorem batch_update_rows_without_responses
    (self : GoogleSheetWrapper) (spreadsheet_id : string)
    (requests : list (BatchUpdateRowsRequest.t F A1Range))
    (w w' : World) (entries : list (string * json)) :
  _svc self (ValuesBatchUpdate spreadsheet_id (batch_update_body requests)) w
    = (Ok (JDict entries), w') ->
  dict_lookup "responses" entries = None ->
  batch_update_rows self spreadsheet_id requests w
  = (Raise (KeyError (JStr "responses")), w').
Proof.
  intros Hcall Hmissing.
  unfold batch_update_rows, bind, lift. rewrite Hcall. simpl.
  now rewrite Hmissing.
Qed.

(** X12.  [update_rows] accepts a reply whose "updatedData" echoes no
    values: the result then has the empty list as [updated_values]. *)
Theorem update_rows_without_echoed_values {R} `{PyStr R}
    (self : GoogleSheetWrapper) (spreadsheet_id : string) (a1_range : R)
    (values resp notation rows columns cells : json)
    (data : list (string * json)) (range : A1Range) (w w' : World) :
  _svc self
    (ValuesUpdate spreadsheet_id (py_str_of a1_range) "true" "FORMATTED_VALUE"
       "USER_ENTERED"
       (JDict [("majorDimension", JStr "ROWS");
               ("range", JStr (py_str_of a1_range));
               ("values", values)])) w = (Ok resp, w') ->
  getitem resp "updatedRange" = Ok notation ->
  from_notation notation = Ok range ->
  getitem resp "updatedRows" = Ok rows ->
  getitem resp "updatedColumns" = Ok columns ->
  getitem resp "updatedCells" = Ok cells ->
  getitem resp "updatedData" = Ok (JDict data) ->
  dict_lookup "values" data = None ->
  update_rows self spreadsheet_id a1_range values w
  = (Ok {| UpdateRowsResult.updated_range := range;
           UpdateRowsResult.updated_rows := rows;
           UpdateRowsResult.updated_columns := columns;
           UpdateRowsResult.updated_cells := cells;
           UpdateRowsResult.updated_values := JList [] |}, w').
Proof.
  intros Hcall Hnotation Hrange Hrows Hcolumns Hcells Hdata Hvalues.
  unfold update_rows, bind, lift.
  change MAJOR_DIMENSION_ROWS with "ROWS". rewrite Hcall.
  unfold UpdateRowsResult_of.
  rewrite Hnotation. simpl. rewrite Hrange. simpl. rewrite Hrows. simpl.
  rewrite Hcolumns. simpl. rewrite Hcells. simpl. rewrite Hdata. simpl.
  rewrite Hvalues. reflexivity.
Qed.

(** X13.  [_insert_rows] (behind [insert_rows] and [overwrite_rows]) has no
    such default: when the reply to the append echoes no values it raises
    KeyError for "values", after the rows have been written. *)
Theorem insert_rows_without_echoed_values {R} `{PyStr R}
    (self : GoogleSheetWrapper) (spreadsheet_id : string) (a1_range : R)
    (values resp updates notation rows columns cells : json) (mode : string)
    (data : list (string * json)) (range : A1Range) (w w' : World) :
  _svc self
    (ValuesAppend spreadsheet_id (py_str_of a1_range) mode "true" "FORMATTED_VALUE"
       "USER_ENTERED" (JDict [("values", values)])) w = (Ok resp, w') ->
  getitem resp "updates" = Ok updates ->
  getitem updates "updatedData" = Ok (JDict data) ->
  dict_lookup "range" data = Some notation ->
  from_notation notation = Ok range ->
  getitem updates "updatedRows" = Ok rows ->
  getitem updates "updatedColumns" = Ok columns ->
  getitem updates "updatedCells" = Ok cells ->
  dict_lookup "values" data = None ->
  _insert_rows self spreadsheet_id a1_range values mode w
  = (Raise (KeyError (JStr "values")), w').
Proof.
  intros Hcall Hupdates Hdata Hnotation Hrange Hrows Hcolumns Hcells Hvalues.
  unfold _insert_rows, bind, lift. rewrite Hcall.
  unfold InsertRowsResult_of.
  rewrite Hupdates. simpl. rewrite Hdata. simpl. rewrite Hnotation. simpl.
  rewrite Hrange. simpl. rewrite Hrows. simpl. rewrite Hcolumns. simpl.
  rewrite Hcells. simpl. rewrite Hvalues. reflexivity.
Qed.

(** X14.  Constructing a session sends no request at all: [_ensure] fails
    on the lookup of [self._scratchpad_name] before [create_sheet] is
    called, so the remote state is left as it was and no sheet is
    created. *)
Theorem session_init_sends_no_request (wrapper : GoogleSheetWrapper)
    (id name : string) (w : World) :
  GoogleSheetSession_init wrapper id name w
  = (Ok {| spreadsheet_id := id; sheet_name := name; _wrapper := wrapper |}, w).
Proof. reflexivity. Qed.

(** X15.  [close] raises AttributeError on the lookup of [self._wrapper],
    for every scratchpad: the booked cell is not cleared, no request reaches
    the service. *)
Theorem close_raises_AttributeError_unchanged (pad : GoogleSheetScratchpad) (w : World) :
  close pad w = (Raise (AttributeError "GoogleSheetScratchpad" "_wrapper"), w).
Proof. reflexivity. Qed.

(** X16.  Constructing a scratchpad parses the session's sheet name as a
    range and sends one request: an append in OVERWRITE mode of the single
    cell "BOOKED" at that range of the session's spreadsheet.  The remote
    state after the construction is the one that request leaves, what the
    service raises is raised by the constructor, and when the sheet name
    does not parse no request is sent. *)
Theorem scratchpad_init_booking_request (session : GoogleSheetSession) (w : World) :
  (forall range,
     from_notation (JStr (sheet_name session)) = Ok range ->
     let booking :=
       ValuesAppend (spreadsheet_id session) (a1_str range) "OVERWRITE" "true"
         "FORMATTED_VALUE" "USER_ENTERED"
         (JDict [("values", JList [JList [JStr "BOOKED"]])]) in
     snd (GoogleSheetScratchpad_init (A1Range := A1Range) session w)
       = snd (_svc (_wrapper session) booking w)
     /\ forall e w',
          _svc (_wrapper session) booking w = (Raise e, w') ->
          GoogleSheetScratchpad_init (A1Range := A1Range) session w = (Raise e, w'))
  /\ (forall e,
        from_notation (A1Range := A1Range) (JStr (sheet_name session)) = Raise e ->
        GoogleSheetScratchpad_init (A1Range := A1Range) session w = (Raise e, w)).
Proof.
  split.
  - intros range Hrange booking.
    unfold GoogleSheetScratchpad_init, _book_scratchpad_cell, Session_overwrite_rows,
      overwrite_rows, _insert_rows, bind, lift, ret.
    simpl _session. rewrite Hrange.
    change (py_str_of range) with (a1_str range).
    change APPEND_MODE_OVERWRITE with "OVERWRITE".
    change SCRATCHPAD_BOOKED_VALUE with "BOOKED".
    fold booking.
    destruct (_svc (_wrapper session) booking w) as [[resp | e0] w1].
    + split; [| discriminate].
      destruct (InsertRowsResult_of resp); reflexivity.
    + split; [reflexivity |].
      intros e w' E. injection E as <- <-. reflexivity.
  - intros e Hrange.
    unfold GoogleSheetScratchpad_init, _book_scratchpad_cell, bind, lift.
    simpl _session. now rewrite Hrange.
Qed.

End WrapperExtras.

(* ================================================================== *)
(** ** The query endpoint *)

Section QueryExtras.

Context {F : Type} `{PyBuiltins F}.
Context {World : Type}.

Notation json := (json F).
Notation GoogleAuthClient := (GoogleAuthClient F World).
Notation http_get := (http_get F World).

Lemma raise_for_status_ok (r : http_response) :
  (status_code r < 400 \/ 600 <= status_code r)%Z ->
  raise_for_status (F := F) r = Ok tt.
Proof.
  intros Hstatus. unfold raise_for_status.
  destruct (400 <=? status_code r)%Z eqn:E1, (status_code r <? 500)%Z eqn:E2,
           (500 <=? status_code r)%Z eqn:E3, (status_code r <? 600)%Z eqn:E4;
    simpl; try reflexivity; lia.
Qed.

Lemma raise_for_status_error (r : http_response) :
  (400 <= status_code r < 600)%Z ->
  exists msg, raise_for_status (F := F) r = Raise (ExternalError "HTTPError" msg).
Proof.
  intros Hstatus. unfold raise_for_status.
  destruct (400 <=? status_code r)%Z eqn:E1, (status_code r <? 500)%Z eqn:E2,
           (500 <=? status_code r)%Z eqn:E3, (status_code r <? 600)%Z eqn:E4;
    simpl; try (eexists; reflexivity); lia.
Qed.

(** X17.  With a str token, [query] sends one GET to the gviz endpoint of
    the spreadsheet, with the sheet, the query text, the response handler
    "freeleh" and the header count 1 or 0 as parameters and the token as
    bearer authorization; when the status of the response is not an error
    status, the outcome of [query] is that of [_convert_query_result] on the
    body, errors included. *)
Theorem query_decodes_response_body (auth_client : GoogleAuthClient) (get : http_get)
    (spreadsheet_id sheet_name query_text token : string) (has_header : bool)
    (r : http_response) (w w1 w2 : World) :
  credentials_token auth_client w = (Ok (JStr token), w1) ->
  get ("https://docs.google.com/spreadsheets/d/" ++ spreadsheet_id ++ "/gviz/tq")
      [("sheet", JStr sheet_name);
       ("tqx", JStr "responseHandler:freeleh");
       ("tq", JStr query_text);
       ("headers", JInt (if has_header then 1 else 0))]
      [("contentType", JStr "application/json");
       ("Authorization", JStr ("Bearer " ++ token))] w1 = (Ok r, w2) ->
  (status_code r < 400 \/ 600 <= status_code r)%Z ->
  query auth_client get spreadsheet_id sheet_name query_text has_header w
  = (_convert_query_result (text r), w2).
Proof.
  intros Htoken Hget Hstatus.
  unfold query, bind, lift, query_url, query_params.
  rewrite Htoken. cbn [str_add]. rewrite Hget.
  now rewrite (raise_for_status_ok r Hstatus).
Qed.

(** X18.  When the response has an error status (400 to 599), [query]
    raises the HTTPError of [raise_for_status]; the body is not decoded,
    even if it holds a table. *)
Theorem query_error_status (auth_client : GoogleAuthClient) (get : http_get)
    (spreadsheet_id sheet_name query_text token : string) (has_header : bool)
    (r : http_response) (w w1 w2 : World) :
  credentials_token auth_client w = (Ok (JStr token), w1) ->
  get (query_url spreadsheet_id) (query_params sheet_name query_text has_header)
      [("contentType", JStr "application/json");
       ("Authorization", JStr ("Bearer " ++ token))] w1 = (Ok r, w2) ->
  (400 <= status_code r < 600)%Z ->
  exists msg,
    query auth_client get spreadsheet_id sheet_name query_text has_header w
    = (Raise (ExternalError "HTTPError" msg), w2).
Proof.
  intros Htoken Hget Hstatus.
  destruct (raise_for_status_error r Hstatus) as [msg Hmsg].
  exists msg. unfold query, bind, lift.
  rewrite Htoken. cbn [str_add]. rewrite Hget. now rewrite Hmsg.
Qed.

(** X19.  When the token of the credentials is not a str (it is [None]
    when the credentials hold no token), [query] raises TypeError on
    ["Bearer " + token] and sends nothing, whatever the transport is. *)
Theorem query_without_token (auth_client : GoogleAuthClient) (get : http_get)
    (spreadsheet_id sheet_name query_text : string) (has_header : bool)
    (token : json) (w w1 : World) :
  credentials_token auth_client w = (Ok token, w1) ->
  (forall s, token <> JStr s) ->
  query auth_client get spreadsheet_id sheet_name query_text has_header w
  = (Raise TypeError, w1).
Proof.
  intros Htoken Hnot_str.
  unfold query, bind, lift. rewrite Htoken.
  destruct token; try reflexivity.
  now destruct (Hnot_str s).
Qed.

End QueryExtras.

(* ================================================================== *)
(** ** The model at work on concrete inputs *)

Import Demo DemoService.

Example parse_boolean_cell :
  _parse_cell (JDict [("v", JBool true); ("f", JStr "TRUE")]) (typed_col "A" "boolean")
  = Ok (JBool true).
Proof. reflexivity. Qed.

Example parse_string_cell :
  _parse_cell (JDict [("v", JStr "name1")]) (typed_col "A" "string") = Ok (JStr "name1").
Proof. reflexivity. Qed.

Example parse_number_cell_without_formatted_value :
  _parse_cell (JDict [("v", JInt 10)]) (typed_col "B" "number")
  = Raise (KeyError (JStr "f")).
Proof. reflexivity. Qed.

Example parse_number_cell_with_separator :
  _parse_cell (JDict [("v", JInt 1234); ("f", JStr "1,234")]) (typed_col "B" "number")
  = Raise (ValueError "invalid literal for int() with base 10: '1,234'").
Proof. reflexivity. Qed.

Example parse_null_cell_of_unknown_type :
  _parse_cell JNull (typed_col "A" "foo") = Ok JNull.
Proof. reflexivity. Qed.

Example rindex_takes_the_last_brace : str_rindex (F := decimal) "}" "f({}});" = Ok 4.
Proof. reflexivity. Qed.

Example convert_null_value_response :
  _convert_query_result (handler_call null_value_text) = Ok [[(JStr "A", JNull)]].
Proof. reflexivity. Qed.

Example session_init_sends_nothing :
  GoogleSheetSession_init wrapper "spreadsheet-1" "scratch" [] = (Ok session, []).
Proof. reflexivity. Qed.

Example book_stores_the_confirmed_range :
  exists w,
    _book_scratchpad_cell {| _session := session; _scratchpad_cell := Unassigned |} []
    = (Ok ({| _session := session; _scratchpad_cell := Assigned (Some "scratch!A1") |},
           None), w).
Proof. eexists. reflexivity. Qed.

Example close_raises_AttributeError :
  close {| _session := session; _scratchpad_cell := Assigned (Some "scratch!A1") |} []
  = (Raise (AttributeError "GoogleSheetScratchpad" "_wrapper"), []).
Proof. reflexivity. Qed.

(* ------------------------------------------------------------------ *)
(** *** Instances of the theorems, and inputs on which the decoder and the
        scratchpad do something else than one might expect *)

(** A cell with a raw value in a column of type "foo": the exception raised
    is a ValueError, so it is not of a class named UnsupportedTypeError. *)
Lemma parse_cell_unsupported_type_is_not_UnsupportedTypeError :
  _parse_cell (JDict [("v", JStr "x")]) (typed_col "A" "foo")
    = Raise (ValueError "cell type foo is not supported")
  /\ ~ (exists e,
          _parse_cell (JDict [("v", JStr "x")]) (typed_col "A" "foo") = Raise e
          /\ exn_class_name e = "UnsupportedTypeError").
Proof.
  split; [reflexivity |].
  intros (e & He & Hclass).
  change (Raise (ValueError "cell type foo is not supported") = Raise e :> result decimal value)
    in He.
  injection He as <-. discriminate Hclass.
Qed.

Lemma parse_cell_unsupported_type_witness :
  getitem (JDict [("v", JStr "x")] : value) "v" = Ok (JStr "x")
  /\ _parse_cell (JDict [("v", JStr "x")]) (typed_col "A" "foo")
       = Raise (ValueError "cell type foo is not supported").
Proof.
  split; [reflexivity |].
  apply (parse_cell_unsupported_type_raises_ValueError
           (JDict [("v", JStr "x")]) (typed_col "A" "foo") (JStr "x") (JStr "foo"));
    reflexivity.
Defined.

Lemma parse_cell_number_witness :
  _parse_cell (JDict [("v", JInt 10); ("f", JStr "10")]) (typed_col "B" "number")
    = Ok (JInt 10)
  /\ _parse_cell
       (JDict [("v", JFloat {| mantissa := 125; scale := 1 |}); ("f", JStr "12.5")])
       (typed_col "B" "number")
     = Ok (JFloat {| mantissa := 125; scale := 1 |}).
Proof.
  split.
  - transitivity (if str_contains "." "10" then py_float (JStr "10")
                  else py_int (JStr "10") : result decimal value);
      [| reflexivity].
    apply (parse_cell_number_parses_formatted
             (JDict [("v", JInt 10); ("f", JStr "10")]) (typed_col "B" "number")
             (JInt 10) "10"); reflexivity.
  - transitivity (if str_contains "." "12.5" then py_float (JStr "12.5")
                  else py_int (JStr "12.5") : result decimal value);
      [| reflexivity].
    apply (parse_cell_number_parses_formatted
             (JDict [("v", JFloat {| mantissa := 125; scale := 1 |}); ("f", JStr "12.5")])
             (typed_col "B" "number") (JFloat {| mantissa := 125; scale := 1 |}) "12.5");
      reflexivity.
Defined.

Lemma parse_cell_date_witness :
  _parse_cell (JDict [("v", JStr "Date(1999,0,1)"); ("f", JStr "1-1-1999")])
    (typed_col "C" "date")
  = Ok (JStr "1-1-1999").
Proof.
  apply (parse_cell_date_like_returns_formatted
           (JDict [("v", JStr "Date(1999,0,1)"); ("f", JStr "1-1-1999")])
           (typed_col "C" "date") (JStr "Date(1999,0,1)") (JStr "1-1-1999") "date");
    try reflexivity.
  simpl. auto.
Defined.

(** A response with one row whose only cell is null: the decoded row is the
    empty mapping, with nothing under the column id "A". *)
Lemma null_cell_is_absent_from_row :
  exists row,
    _convert_query_result (handler_call null_cell_text) = Ok [row]
    /\ dict_find row (JStr "A") <> Some JNull.
Proof.
  exists []. split; [reflexivity | discriminate].
Qed.

Lemma null_cell_yields_no_entry_witness :
  _convert_query_result (handler_call null_cell_text) = Ok [[]]
  /\ exists cols rows,
       response_table (handler_call null_cell_text) = Ok (cols, rows) /\
       Forall2 (fun row mapping =>
                  exists cells,
                    row_cells row = Ok cells /\
                    null_cells_absent cols cells mapping /\
                    null_values_stored cols cells mapping)
               rows [[]].
Proof.
  split; [reflexivity |].
  apply (null_cell_yields_no_entry (handler_call null_cell_text) [[]]).
  reflexivity.
Defined.

Lemma convert_query_result_no_rows_witness :
  _convert_query_result (handler_call empty_text) = Ok [].
Proof.
  apply (convert_query_result_no_rows (handler_call empty_text) 8 64
           (table [typed_col "A" "string"] [])
           (JDict [("cols", JList [typed_col "A" "string"]); ("rows", JList [])])
           (JList [typed_col "A" "string"]));
    reflexivity.
Defined.


Lemma session_init_on_failing_service :
  exists w',
    GoogleSheetSession_init
      {| _svc := fun _ (w : world) =>
                   (Raise (ExternalError "HttpError" "503") : result decimal value, w) |}
      "spreadsheet-1" "rows" []
    = (Ok {| spreadsheet_id := "spreadsheet-1"; sheet_name := "rows";
             _wrapper := {| _svc := fun _ (w : world) =>
                              (Raise (ExternalError "HttpError" "503"), w) |} |}, w').
Proof. apply session_init_never_raises. Defined.

Lemma scratchpad_init_witness :
  let booking : api_call decimal :=
    ValuesAppend "spreadsheet-1" "scratch" "OVERWRITE" "true" "FORMATTED_VALUE"
      "USER_ENTERED" (JDict [("values", JList [JList [JStr "BOOKED"]])]) in
  let pad : GoogleSheetScratchpad decimal string world :=
    {| _session := session; _scratchpad_cell := Assigned None |} in
  GoogleSheetScratchpad_init session [] = (Ok pad, [booking])
  /\ exists confirmed,
       Session_overwrite_rows session "scratch"
         (JList [JList [JStr SCRATCHPAD_BOOKED_VALUE]]) [] = (Ok confirmed, [booking])
       /\ InsertRowsResult.updated_range confirmed = "scratch!A1"
       /\ _scratchpad_cell pad <> Assigned (Some (InsertRowsResult.updated_range confirmed)).
Proof.
  intros booking pad.
  assert (Hinit : GoogleSheetScratchpad_init session [] = (Ok pad, [booking]))
    by reflexivity.
  split; [exact Hinit |].
  destruct (scratchpad_init_records_None session pad [] [booking] Hinit)
    as (a1_range & confirmed & Hrange & Hover & Hcell & Hdiffers).
  injection Hrange as <-.
  exists confirmed. split; [exact Hover |]. split; [| exact Hdiffers].
  change (Session_overwrite_rows session "scratch"
            (JList [JList [JStr SCRATCHPAD_BOOKED_VALUE]]) [])
    with (Ok {| InsertRowsResult.updated_range := "scratch!A1";
                InsertRowsResult.updated_rows := JInt 1;
                InsertRowsResult.updated_columns := JInt 1;
                InsertRowsResult.updated_cells := JInt 1;
                InsertRowsResult.inserted_values := JList [JList [JStr "BOOKED"]] |}
            : result decimal (InsertRowsResult.t decimal string), [booking]) in Hover.
  injection Hover as <-. reflexivity.
Defined.

(** A scratchpad built on the echoing service, closed, then asked to
    evaluate a formula: [execute] fails with AttributeError, which is not an
    InvalidOperationError. *)
Lemma execute_after_close_raises_AttributeError :
  exists pad w0,
    GoogleSheetScratchpad_init session [] = (Ok pad, w0)
    /\ fst (execute pad "=1+1" (snd (close pad w0)))
       = Raise (AttributeError "GoogleSheetScratchpad" "_wrapper")
    /\ ~ (exists msg,
            fst (execute pad "=1+1" (snd (close pad w0)))
            = Raise (InvalidOperationError msg)).
Proof.
  eexists. eexists. split; [reflexivity |]. split; [reflexivity |].
  intros (msg & Hmsg). discriminate Hmsg.
Qed.

(* ------------------------------------------------------------------ *)
(** *** Instances of the further properties *)

Import DemoHttp DemoFaults.

Example convert_people :
  _convert_query_result (H := people_builtins) (handler_call people_text)
  = Ok [[(JStr "A", JStr "name1"); (JStr "B", JInt 10)]; [(JStr "B", JInt 11)]].
Proof. reflexivity. Qed.

Lemma convert_query_result_ignores_wrapper_witness :
  let body := quoted "table" ++ ":{" ++ quoted "cols" ++ ":[]," ++ quoted "rows" ++ ":[]}" in
  str_contains "{" "/*O_o*/ freeleh(" = false
  /\ str_contains "}" ");" = false
  /\ _convert_query_result ("/*O_o*/ freeleh(" ++ "{" ++ body ++ "}" ++ ");")
     = _convert_query_result ("{" ++ body ++ "}").
Proof.
  intros body. split; [reflexivity |]. split; [reflexivity |].
  apply (convert_query_result_ignores_wrapper "/*O_o*/ freeleh(" body ");");
    reflexivity.
Defined.

Lemma convert_query_result_without_braces_witness :
  str_contains "{" "Invalid query" = false
  /\ _convert_query_result "Invalid query" = Raise (ValueError "substring not found")
  /\ _convert_query_result "freeleh({" = Raise (ValueError "substring not found").
Proof.
  split; [reflexivity |]. split.
  - apply (convert_query_result_without_braces "Invalid query"). left. reflexivity.
  - apply (convert_query_result_without_braces "freeleh({"). right. reflexivity.
Defined.

Lemma parse_cell_boolean_string_witness :
  _parse_cell (JDict [("v", JBool false); ("f", JStr "FALSE")]) (typed_col "A" "boolean")
    = Ok (JBool false)
  /\ _parse_cell (JDict [("v", JInt 7); ("f", JStr "7")]) (typed_col "A" "string")
     = Ok (JInt 7).
Proof.
  split.
  - apply (parse_cell_boolean_string_returns_raw
             (JDict [("v", JBool false); ("f", JStr "FALSE")]) (typed_col "A" "boolean")
             (JBool false) "boolean"); try reflexivity.
    simpl. auto.
  - apply (parse_cell_boolean_string_returns_raw
             (JDict [("v", JInt 7); ("f", JStr "7")]) (typed_col "A" "string")
             (JInt 7) "string"); try reflexivity.
    simpl. auto.
Defined.

Lemma parse_cell_without_formatted_value_witness :
  _parse_cell (JDict [("v", JInt 10)]) (typed_col "B" "number")
    = Raise (KeyError (JStr "f"))
  /\ _parse_cell (JDict [("v", JStr "Date(1999,0,1)")]) (typed_col "C" "date")
     = Raise (KeyError (JStr "f")).
Proof.
  split.
  - apply (parse_cell_without_formatted_value
             [("v", JInt 10)] (typed_col "B" "number") (JInt 10) "number");
      try reflexivity.
    simpl. auto.
  - apply (parse_cell_without_formatted_value
             [("v", JStr "Date(1999,0,1)")] (typed_col "C" "date")
             (JStr "Date(1999,0,1)") "date");
      try reflexivity.
    simpl. auto.
Defined.

Lemma decoded_value_under_column_id_witness :
  let results : list pydict :=
    [[(JStr "A", JStr "name1"); (JStr "B", JInt 10)]; [(JStr "B", JInt 11)]] in
  _convert_query_result (H := people_builtins) (handler_call people_text) = Ok results
  /\ exists cols rows,
       response_table (H := people_builtins) (handler_call people_text) = Ok (cols, rows)
       /\ length rows = length results.
Proof.
  intros results. split; [reflexivity |].
  destruct (decoded_value_under_column_id (H := people_builtins)
              (handler_call people_text) results eq_refl)
    as (cols & rows & Htable & Hall).
  exists cols, rows. split; [exact Htable |].
  clear Htable. induction Hall; simpl; congruence.
Defined.

Lemma convert_cells_null_prefix_witness :
  let cols : value := JList [typed_col "A" "string"; typed_col "B" "string"] in
  convert_cells cols 0 ([JNull; JDict []] ++ [JDict [("v", JStr "x")]]) []
  = Raise IndexError.
Proof.
  intros cols.
  rewrite (convert_cells_null_prefix cols [JNull; JDict []] [JDict [("v", JStr "x")]] 0 []).
  - reflexivity.
  - repeat constructor.
Defined.

Lemma convert_cells_beyond_columns_witness :
  truthy (JDict [("v", JStr "x")] : value) = true
  /\ ~ (exists row',
          convert_cells (JList [typed_col "A" "string"]) 0
            [JNull; JDict [("v", JStr "x")]] [] = Ok row').
Proof.
  split; [reflexivity |].
  intros [row' Hrun]. revert Hrun.
  apply (convert_cells_beyond_columns [typed_col "A" "string"]
           [JNull; JDict [("v", JStr "x")]] 0 1 [] (JDict [("v", JStr "x")]));
    reflexivity.
Defined.

Lemma convert_query_result_all_null_rows_witness :
  _convert_query_result (handler_call null_cell_text) = Ok [[]].
Proof.
  apply (convert_query_result_all_null_rows (handler_call null_cell_text)
           (JList [typed_col "A" "string"]) [JDict [("c", JList [JNull])]]).
  - reflexivity.
  - constructor; [| constructor].
    exists [JNull]. split; [reflexivity |]. repeat constructor.
Defined.

Lemma batch_update_body_entries_witness :
  exists data entry,
    getitem (batch_update_body two_requests) "data" = Ok (JList data)
    /\ length data = 2%nat
    /\ nth_error data 1 = Some entry
    /\ getitem entry "range" = Ok (JStr "rows!A3:B3")
    /\ getitem entry "values" = Ok (JList [JList [JStr "name2"; JInt 11]])
    /\ getitem entry "majorDimension" = Ok (JStr "ROWS").
Proof.
  exact (batch_update_body_entries two_requests 1
           {| BatchUpdateRowsRequest.range := "rows!A3:B3";
              BatchUpdateRowsRequest.values := JList [JList [JStr "name2"; JInt 11]] |}
           eq_refl).
Defined.

Lemma batch_update_rows_first_bad_entry_witness :
  let good := echo_update (JStr "rows!A2:B2") (JList [JList [JStr "name1"]]) in
  let reply : value := JDict [("responses", JList [good; entry_without_range; good])] in
  batch_update_rows (replying reply) "spreadsheet-1" two_requests []
  = (Raise (KeyError (JStr "updatedRange")),
     [ValuesBatchUpdate "spreadsheet-1" (batch_update_body two_requests)]).
Proof.
  intros good reply.
  apply (batch_update_rows_first_bad_entry (replying reply) "spreadsheet-1" two_requests
           [] _ reply entry_without_range [good] [good]).
  - reflexivity.
  - reflexivity.
  - repeat constructor. eexists. reflexivity.
  - reflexivity.
Defined.

Lemma batch_update_rows_without_responses_witness :
  batch_update_rows (replying (JDict [("spreadsheetId", JStr "spreadsheet-1")]))
    "spreadsheet-1" ([] : list (BatchUpdateRowsRequest.t decimal string)) []
  = (Raise (KeyError (JStr "responses")),
     [ValuesBatchUpdate "spreadsheet-1" (batch_update_body [])]).
Proof.
  apply (batch_update_rows_without_responses
           (replying (JDict [("spreadsheetId", JStr "spreadsheet-1")]))
           "spreadsheet-1" [] [] _ [("spreadsheetId", JStr "spreadsheet-1")]);
    reflexivity.
Defined.

Lemma update_rows_without_echoed_values_witness :
  exists w',
    update_rows (replying update_reply_without_values) "spreadsheet-1" "rows!A2"
      (JList [JList [JStr ""]]) []
    = (Ok {| UpdateRowsResult.updated_range := "rows!A2";
             UpdateRowsResult.updated_rows := JInt 1;
             UpdateRowsResult.updated_columns := JInt 1;
             UpdateRowsResult.updated_cells := JInt 1;
             UpdateRowsResult.updated_values := JList [] |}, w').
Proof.
  eexists.
  apply (update_rows_without_echoed_values (replying update_reply_without_values)
           "spreadsheet-1" "rows!A2" (JList [JList [JStr ""]])
           update_reply_without_values (JStr "rows!A2") (JInt 1) (JInt 1) (JInt 1)
           [("range", JStr "rows!A2"); ("majorDimension", JStr "ROWS")] "rows!A2" []);
    reflexivity.
Defined.

Lemma insert_rows_without_echoed_values_witness :
  exists w',
    insert_rows (replying append_reply_without_values) "spreadsheet-1" "rows!A2"
      (JList [JList [JStr ""]]) []
    = (Raise (KeyError (JStr "values")), w')
    /\ w' <> [].
Proof.
  eexists. split.
  - apply (insert_rows_without_echoed_values (replying append_reply_without_values)
             "spreadsheet-1" "rows!A2" (JList [JList [JStr ""]])
             append_reply_without_values
             (JDict [("updatedRange", JStr "rows!A2");
                     ("updatedRows", JInt 1);
                     ("updatedColumns", JInt 1);
                     ("updatedCells", JInt 1);
                     ("updatedData",
                      JDict [("range", JStr "rows!A2"); ("majorDimension", JStr "ROWS")])])
             (JStr "rows!A2") (JInt 1) (JInt 1) (JInt 1) "INSERT_ROWS"
             [("range", JStr "rows!A2"); ("majorDimension", JStr "ROWS")] "rows!A2" []);
      reflexivity.
  - discriminate.
Defined.

Lemma scratchpad_init_booking_request_witness :
  snd (GoogleSheetScratchpad_init (A1Range := string) session [])
  = [ValuesAppend "spreadsheet-1" "scratch" "OVERWRITE" "true" "FORMATTED_VALUE"
       "USER_ENTERED" (JDict [("values", JList [JList [JStr "BOOKED"]])])].
Proof.
  destruct (scratchpad_init_booking_request (A1Range := string) session [])
    as [Hparsed _].
  destruct (Hparsed "scratch" eq_refl) as [Hworld _].
  rewrite Hworld. reflexivity.
Defined.

Lemma query_decodes_response_body_witness :
  query auth (endpoint 200 "OK" (handler_call null_value_text))
    "spreadsheet-1" "rows" "select A" true []
  = (Ok [[(JStr "A", JNull)]], []).
Proof.
  rewrite (query_decodes_response_body auth
             (endpoint 200 "OK" (handler_call null_value_text))
             "spreadsheet-1" "rows" "select A" "token-1" true
             {| status_code := 200; reason := "OK";
                url := "https://docs.google.com/spreadsheets/d/spreadsheet-1/gviz/tq";
                text := handler_call null_value_text |} [] [] []).
  - reflexivity.
  - reflexivity.
  - reflexivity.
  - simpl. lia.
Defined.

Lemma query_error_status_witness :
  exists msg,
    query auth (endpoint 404 "Not Found" (handler_call null_value_text))
      "spreadsheet-1" "rows" "select A" true []
    = (Raise (ExternalError "HTTPError" msg), []).
Proof.
  apply (query_error_status auth
           (endpoint 404 "Not Found" (handler_call null_value_text))
           "spreadsheet-1" "rows" "select A" "token-1" true
           {| status_code := 404; reason := "Not Found";
              url := "https://docs.google.com/spreadsheets/d/spreadsheet-1/gviz/tq";
              text := handler_call null_value_text |} [] [] []).
  - reflexivity.
  - reflexivity.
  - simpl. lia.
Defined.

Lemma query_without_token_witness :
  query no_token (endpoint 200 "OK" (handler_call null_value_text))
    "spreadsheet-1" "rows" "select A" true []
  = (Raise TypeError, []).
Proof.
  apply (query_without_token no_token
           (endpoint 200 "OK" (handler_call null_value_text))
           "spreadsheet-1" "rows" "select A" true JNull [] []).
  - reflexivity.
  - discriminate.
Defined.

Lemma convert_query_result_without_table_witness :
  _convert_query_result (H := people_builtins) (handler_call error_text)
  = Raise (KeyError (JStr "table")).
Proof.
  apply (convert_query_result_without_table (H := people_builtins)
           (handler_call error_text) 8 (String.length error_text + 7)
           [("version", JStr "0.6"); ("status", JStr "error");
            ("errors", JList [JDict [("reason", JStr "invalid_query")]])]);
    reflexivity.
Defined.


